(** * Tabbed menu page: a model of [script.js]

    The script keeps two globals ([currentTab], [isLoading]), registers click
    listeners on the tab buttons and the menu items of the page, and simulates
    a REST call with [setTimeout] and [Math.random].  This development embeds
    the script as functions over an explicit page state and proves the
    single-flight properties of the simulated request.

    Conventions of the embedding.
    - The page is a flat sequence of elements in document order; an element
      reference is its position.  The script only queries elements by class,
      by id and by the [data-tab] attribute, and only writes their class list,
      text, [disabled] flag and two inline style properties.
    - JavaScript numbers are read as exact rationals ([Q]) and decimal
      literals as the fractions they spell, without the rounding of binary
      floating point; the values drawn from [Math.random] and the clock
      reading are inputs of the events.
    - Class and attribute values are compared as in a standards-mode
      document, character by character.
    - A function body is a computation in a small state-and-exception monad
      [JS]: a thrown DOM exception stops the body and keeps the writes made
      so far, as in the browser. *)

From Stdlib Require Import List String Ascii Bool Arith Lia QArith Lqa.
Import ListNotations.
Local Open Scope string_scope.

(** ** Strings of the script *)

(** The character U+0022, used by the template literals around item names. *)
Definition dquote : string := String (ascii_of_nat 34) EmptyString.

(** [String(v)] for a value that is a string or [null], as performed by a
    template literal and by the DOM when it expects a DOMString. *)
Definition toString (v : option string) : string :=
  match v with
  | Some s => s
  | None => "null"
  end.

(** Truthiness of a string: only the empty string is falsy. *)
Definition truthy (s : string) : bool :=
  match s with
  | EmptyString => false
  | String _ _ => true
  end.

(** ** Completions *)

(** Outcome of running a function body: it returns normally or throws. *)
Inductive Completion (A : Type) : Type :=
| Normal (a : A)
| Throw.
Arguments Normal {A} a.
Arguments Throw {A}.

(** ** The page *)

Record Element : Type := mkElement {
  el_id : option string;          (* the id attribute, when present and non-empty *)
  classList : list string;        (* the class tokens, in order *)
  data_tab : option string;       (* getAttribute('data-tab') *)
  data_item : option string;      (* getAttribute('data-item') *)
  disabled : bool;
  style_opacity : string;
  style_cursor : string;
  textContent : string
}.

Definition Document : Type := list Element.

Definition set_classList (l : list string) (e : Element) : Element :=
  mkElement (el_id e) l (data_tab e) (data_item e) (disabled e)
            (style_opacity e) (style_cursor e) (textContent e).

Definition set_textContent (t : string) (e : Element) : Element :=
  mkElement (el_id e) (classList e) (data_tab e) (data_item e) (disabled e)
            (style_opacity e) (style_cursor e) t.

Definition set_disabled (b : bool) (e : Element) : Element :=
  mkElement (el_id e) (classList e) (data_tab e) (data_item e) b
            (style_opacity e) (style_cursor e) (textContent e).

Definition set_style_opacity (v : string) (e : Element) : Element :=
  mkElement (el_id e) (classList e) (data_tab e) (data_item e) (disabled e)
            v (style_cursor e) (textContent e).

Definition set_style_cursor (v : string) (e : Element) : Element :=
  mkElement (el_id e) (classList e) (data_tab e) (data_item e) (disabled e)
            (style_opacity e) v (textContent e).

(** *** Class lists (DOMTokenList) *)

Definition contains (tok : string) (l : list string) : bool :=
  existsb (String.eqb tok) l.

(** [classList.remove(t1, ..., tn)] for valid tokens: every occurrence goes. *)
Definition classList_remove (toks : list string) (l : list string) : list string :=
  filter (fun c => negb (contains c toks)) l.

Definition is_ascii_whitespace (c : ascii) : bool :=
  let n := nat_of_ascii c in
  (n =? 9)%nat || (n =? 10)%nat || (n =? 12)%nat || (n =? 13)%nat || (n =? 32)%nat.

Fixpoint has_whitespace (s : string) : bool :=
  match s with
  | EmptyString => false
  | String c s' => is_ascii_whitespace c || has_whitespace s'
  end.

(** [classList.add(tok)]: throws on an empty token (SyntaxError) or on one
    holding ASCII whitespace (InvalidCharacterError); otherwise the token is
    appended unless already present. *)
Definition classList_add (tok : string) (l : list string) : Completion (list string) :=
  if negb (truthy tok) then Throw
  else if has_whitespace tok then Throw
  else Normal (if contains tok l then l else (l ++ [tok])%list).

(** *** Queries *)

Definition has_class (c : string) (e : Element) : bool :=
  contains c (classList e).

(** Positions of the elements that satisfy [p], in document order: the static
    NodeList returned by [document.querySelectorAll]. *)
Fixpoint querySelectorAll (p : Element -> bool) (d : Document) : list nat :=
  match d with
  | [] => []
  | e :: d' =>
      ((if p e then [0%nat] else []) ++ map S (querySelectorAll p d'))%list
  end.

(** First element that satisfies [p]: [document.querySelector]. *)
Definition querySelector (p : Element -> bool) (d : Document) : option nat :=
  hd_error (querySelectorAll p d).

(** [document.getElementById(x)]: an empty id never matches. *)
Definition getElementById (x : string) (d : Document) : option nat :=
  if truthy x
  then querySelector (fun e => match el_id e with
                               | Some i => String.eqb i x
                               | None => false
                               end) d
  else None.

(** Write through an element reference. *)
Fixpoint update_at (i : nat) (f : Element -> Element) (d : Document) : Document :=
  match d, i with
  | [], _ => []
  | e :: d', O => f e :: d'
  | e :: d', S j => e :: update_at j f d'
  end.

(** [nodes.forEach(n => ...)] where the body only writes the visited node. *)
Definition forEach (nodes : list nat) (f : Element -> Element) (d : Document) : Document :=
  fold_left (fun acc i => update_at i f acc) nodes d.

(** ** Program state *)

(** A pending [setTimeout] callback.  The arrow function of
    [simulateRestApiCall] captures [itemName]; the delay is kept as given. *)
Record Timer : Type := mkTimer {
  timer_itemName : option string;
  timer_delay : Q
}.

(** The two anonymous click listeners of the script. *)
Inductive Listener : Type :=
| TabButtonClick      (* registered by initializeTabSystem *)
| MenuItemClick.      (* registered by initializeMenuItems *)

Record State : Type := mkState {
  currentTab : option string;            (* let currentTab *)
  isLoading : bool;                      (* let isLoading *)
  timers : list Timer;                   (* callbacks scheduled and not yet run *)
  listeners : list (nat * Listener);     (* click listeners, in registration order *)
  document : Document;
  statusCalls : list (string * string)   (* ghost: arguments of every call of
                                            updateStatusMessage, oldest first *)
}.

(** ** The monad of function bodies *)

Definition JS (A : Type) : Type := State -> Completion A * State.

Definition ret {A : Type} (a : A) : JS A := fun s => (Normal a, s).

Definition bind {A B : Type} (m : JS A) (k : A -> JS B) : JS B :=
  fun s =>
    match m s with
    | (Normal a, s') => k a s'
    | (Throw, s') => (Throw, s')
    end.

Declare Scope js_scope.
Delimit Scope js_scope with js.
Notation "x <- m ;; k" := (bind m (fun x => k))
  (at level 61, m at next level, right associativity) : js_scope.
Notation "m ;; k" := (bind m (fun _ => k))
  (at level 61, right associativity) : js_scope.
Local Open Scope js_scope.

Definition get_isLoading : JS bool := fun s => (Normal (isLoading s), s).

Definition set_isLoading (b : bool) : JS unit :=
  fun s => (Normal tt,
            mkState (currentTab s) b (timers s) (listeners s) (document s) (statusCalls s)).

Definition set_currentTab (t : option string) : JS unit :=
  fun s => (Normal tt,
            mkState t (isLoading s) (timers s) (listeners s) (document s) (statusCalls s)).

Definition get_document : JS Document := fun s => (Normal (document s), s).

Definition set_document (d : Document) : JS unit :=
  fun s => (Normal tt,
            mkState (currentTab s) (isLoading s) (timers s) (listeners s) d (statusCalls s)).

(** [setTimeout(callback, delay)] *)
Definition setTimeout (itemName : option string) (delay : Q) : JS unit :=
  fun s => (Normal tt,
            mkState (currentTab s) (isLoading s)
                    (timers s ++ [mkTimer itemName delay])
                    (listeners s) (document s) (statusCalls s)).

(** [node.addEventListener('click', l)] for each node of a NodeList. *)
Definition addEventListeners (nodes : list nat) (l : Listener) : JS unit :=
  fun s => (Normal tt,
            mkState (currentTab s) (isLoading s) (timers s)
                    (listeners s ++ map (fun i => (i, l)) nodes)
                    (document s) (statusCalls s)).

Definition record_statusCall (message type : string) : JS unit :=
  fun s => (Normal tt,
            mkState (currentTab s) (isLoading s) (timers s) (listeners s) (document s)
                    (statusCalls s ++ [(message, type)])).

(** Apply [f] to the element behind a reference. *)
Definition write (node : nat) (f : Element -> Element) : JS unit :=
  d <- get_document ;; set_document (update_at node f d).

(** [node.classList.add(tok)] *)
Definition classList_add_at (node : nat) (tok : string) : JS unit :=
  d <- get_document ;;
  match nth_error d node with
  | Some e =>
      match classList_add tok (classList e) with
      | Normal l => set_document (update_at node (set_classList l) d)
      | Throw => fun s => (Throw, s)
      end
  | None => ret tt
  end.

(** [this.getAttribute(...)] inside a listener. *)
Definition getAttribute (attr : Element -> option string) (this : nat) : JS (option string) :=
  d <- get_document ;;
  ret (match nth_error d this with
       | Some e => attr e
       | None => None
       end).

(** ** User interface utilities *)

(** [updateStatusMessage(message, type = '')] *)
Definition updateStatusMessage (message type : string) : JS unit :=
  record_statusCall message type ;;
  d <- get_document ;;
  match getElementById "statusMessage" d with
  | Some statusElement =>
      write statusElement (set_textContent message) ;;
      write statusElement
        (fun e => set_classList
                    (classList_remove ["loading"; "success"; "error"] (classList e)) e) ;;
      if truthy type then classList_add_at statusElement type else ret tt
  | None => ret tt
  end.

(** [disableMenuItems(disabled)] *)
Definition disableMenuItems (disabled : bool) : JS unit :=
  d <- get_document ;;
  let menuItems := querySelectorAll (has_class "menu-item") d in
  set_document
    (forEach menuItems
       (fun item =>
          let item := set_disabled disabled item in
          if disabled
          then set_style_cursor "not-allowed" (set_style_opacity "0.6" item)
          else set_style_cursor "pointer" (set_style_opacity "1" item))
       d).

(** ** REST API simulation *)

(** [handleApiSuccess(itemName)]; [currentTime] is
    [new Date().toLocaleTimeString()]. *)
Definition handleApiSuccess (itemName : option string) (currentTime : string) : JS unit :=
  updateStatusMessage
    ("✓ API call successful for " ++ dquote ++ toString itemName ++ dquote
       ++ " at " ++ currentTime)
    "success".

(** [handleApiError(itemName)] *)
Definition handleApiError (itemName : option string) (currentTime : string) : JS unit :=
  updateStatusMessage
    ("✗ API call failed for " ++ dquote ++ toString itemName ++ dquote
       ++ " at " ++ currentTime)
    "error".

(** [x > y] on numbers. *)
Definition Qgtb (x y : Q) : bool := negb (Qle_bool x y).

(** The delay computed on line 163 from the value of [Math.random()]. *)
Definition delay_of (random : Q) : Q := (random * 2000 + 1000)%Q.

(** The outcome drawn on line 168 from the value of [Math.random()]. *)
Definition success_of (random : Q) : bool := Qgtb random (1 # 10).

(** The arrow function handed to [setTimeout]: [itemName] is the captured
    variable, [random] the value of [Math.random()] when it runs. *)
Definition timeoutCallback (itemName : option string) (random : Q) (currentTime : string)
  : JS unit :=
  let success := success_of random in
  (if success
   then handleApiSuccess itemName currentTime
   else handleApiError itemName currentTime) ;;
  set_isLoading false ;;
  disableMenuItems false.

(** [simulateRestApiCall(itemName)]; [random] is the value of [Math.random()]. *)
Definition simulateRestApiCall (itemName : option string) (random : Q) : JS unit :=
  set_isLoading true ;;
  updateStatusMessage
    ("Simulating REST API call for " ++ dquote ++ toString itemName ++ dquote ++ "...")
    "loading" ;;
  disableMenuItems true ;;
  let delay := delay_of random in
  setTimeout itemName delay.

(** ** Menu items *)

(** The click listener of a menu item (lines 128-139). *)
Definition menuItemClick (this : nat) (random : Q) : JS unit :=
  loading <- get_isLoading ;;
  if loading
  then updateStatusMessage "API call already in progress - Please wait" "error"
  else
    itemName <- getAttribute data_item this ;;
    simulateRestApiCall itemName random.

(** [initializeMenuItems()] *)
Definition initializeMenuItems : JS unit :=
  d <- get_document ;;
  let menuItems := querySelectorAll (has_class "menu-item") d in
  addEventListeners menuItems MenuItemClick.

(** ** Tab system *)

Section Host.

(** What the browser does with a selector outside the fragment modelled
    below: it throws a SyntaxError or returns a node or [null]. *)
Variable host_querySelector : string -> Document -> Completion (option nat).

(** Printed form of the member that [Object.prototype] holds under a
    key ([constructor], [toString], ...), if there is one. *)
Variable object_prototype_get : string -> option string.

(** A value that a double-quoted CSS string denotes verbatim: it has no
    quote, backslash, NUL or line break. *)
Definition css_plain_char (c : ascii) : bool :=
  let n := nat_of_ascii c in
  negb ((n =? 34)%nat || (n =? 92)%nat || (n =? 0)%nat
        || (n =? 10)%nat || (n =? 12)%nat || (n =? 13)%nat).

Fixpoint css_plain (s : string) : bool :=
  match s with
  | EmptyString => true
  | String c s' => css_plain_char c && css_plain s'
  end.

(** [document.querySelector(`[data-tab="${tabId}"]`)] *)
Definition querySelector_data_tab (tabId : option string) : JS (option nat) :=
  let v := toString tabId in
  fun s =>
    if css_plain v
    then (Normal (querySelector
                    (fun e => match data_tab e with
                              | Some a => String.eqb a v
                              | None => false
                              end)
                    (document s)), s)
    else (host_querySelector ("[data-tab=" ++ dquote ++ v ++ dquote ++ "]") (document s), s).

(** [tabNames[key]]: an own property, or one inherited from
    [Object.prototype]. *)
Definition tabNames (key : string) : option string :=
  if String.eqb key "tab1" then Some "Main Dishes"
  else if String.eqb key "tab2" then Some "Beverages"
  else if String.eqb key "tab3" then Some "Desserts"
  else object_prototype_get key.

(** [getTabDisplayName(tabId)], as printed by a template literal. *)
Definition getTabDisplayName (tabId : option string) : string :=
  match tabNames (toString tabId) with
  | Some name => name
  | None => toString tabId
  end.

(** [switchToTab(tabId)] *)
Definition switchToTab (tabId : option string) : JS unit :=
  set_currentTab tabId ;;
  d <- get_document ;;
  let allTabButtons := querySelectorAll (has_class "tab-button") d in
  set_document
    (forEach allTabButtons
       (fun button => set_classList (classList_remove ["active"] (classList button)) button)
       d) ;;
  activeTabButton <- querySelector_data_tab tabId ;;
  match activeTabButton with
  | Some b => classList_add_at b "active"
  | None => ret tt
  end ;;
  d <- get_document ;;
  let allTabContent := querySelectorAll (has_class "tab-content") d in
  set_document
    (forEach allTabContent
       (fun content => set_classList (classList_remove ["active"] (classList content)) content)
       d) ;;
  d <- get_document ;;
  let activeTabContent := getElementById (toString tabId) d in
  match activeTabContent with
  | Some c => classList_add_at c "active"
  | None => ret tt
  end ;;
  let tabName := getTabDisplayName tabId in
  updateStatusMessage ("Switched to " ++ tabName) "success".

(** The click listener of a tab button (lines 42-53). *)
Definition tabButtonClick (this : nat) : JS unit :=
  loading <- get_isLoading ;;
  if loading
  then updateStatusMessage "Please wait for current operation to complete" "error"
  else
    targetTab <- getAttribute data_tab this ;;
    switchToTab targetTab.

(** [initializeTabSystem()] *)
Definition initializeTabSystem : JS unit :=
  d <- get_document ;;
  let tabButtons := querySelectorAll (has_class "tab-button") d in
  addEventListeners tabButtons TabButtonClick.

(** ** Initialization *)

(** State once the script has been evaluated over page [d]. *)
Definition script_loaded (d : Document) : State :=
  mkState (Some "tab1") false [] [] d [].

(** The [DOMContentLoaded] listener (lines 19-24). *)
Definition onDOMContentLoaded : JS unit :=
  initializeTabSystem ;;
  initializeMenuItems ;;
  updateStatusMessage "Application initialized - Ready to use" EmptyString.

Definition initial (d : Document) : State :=
  snd (onDOMContentLoaded (script_loaded d)).

(** ** Events *)

(** A click that bubbles through several elements with listeners is the
    sequence of their [Click] events, innermost first.  The [disabled] flag
    does not filter clicks here: a page whose menu items are not form
    controls delivers them regardless, and the properties below hold for
    every sequence of events. *)
Inductive Event : Type :=
| Click (target : nat) (random : Q)
    (* a click reaches element [target]; [random] is what Math.random()
       returns if a listener calls it *)
| TimerFired (timer : nat) (random : Q) (currentTime : string).
    (* the browser runs pending callback number [timer]; the callback draws
       [random] and reads the clock as [currentTime] *)

Definition run_listener (l : Listener) (this : nat) (random : Q) : JS unit :=
  match l with
  | TabButtonClick => tabButtonClick this
  | MenuItemClick => menuItemClick this random
  end.

(** Listeners of the target run in registration order; an exception leaves
    one listener and does not stop the next. *)
Fixpoint dispatch (ls : list (nat * Listener)) (target : nat) (random : Q) (s : State)
  : State :=
  match ls with
  | [] => s
  | (node, l) :: ls' =>
      if (node =? target)%nat
      then dispatch ls' target random (snd (run_listener l target random s))
      else dispatch ls' target random s
  end.

Definition remove_at {A : Type} (i : nat) (l : list A) : list A :=
  (firstn i l ++ skipn (S i) l)%list.

Definition clear_timer (i : nat) (s : State) : State :=
  mkState (currentTab s) (isLoading s) (remove_at i (timers s)) (listeners s)
          (document s) (statusCalls s).

(** One turn of the event loop; [None] when the event cannot happen (no
    such element, no such pending callback). *)
Definition step (e : Event) (s : State) : option State :=
  match e with
  | Click target random =>
      if (target <? List.length (document s))%nat
      then Some (dispatch (listeners s) target random s)
      else None
  | TimerFired i random currentTime =>
      match nth_error (timers s) i with
      | Some t =>
          Some (snd (timeoutCallback (timer_itemName t) random currentTime
                                     (clear_timer i s)))
      | None => None
      end
  end.

Fixpoint run (es : list Event) (s : State) : option State :=
  match es with
  | [] => Some s
  | e :: es' =>
      match step e s with
      | Some s' => run es' s'
      | None => None
      end
  end.

End Host.

(** ** Debugging utilities *)

(** The object returned by [getCurrentTabInfo]. *)
Record TabInfo : Type := mkTabInfo {
  info_currentTab : option string;
  info_isLoading : bool;
  info_timestamp : string
}.

(** [getCurrentTabInfo()]; [timestamp] is [new Date().toISOString()]. *)
Definition getCurrentTabInfo (timestamp : string) : JS TabInfo :=
  fun s => (Normal (mkTabInfo (currentTab s) (isLoading s) timestamp), s).

(** * Vocabulary of the properties *)

(** The three styling classes of the status bar. *)
Definition styling_classes : list string := ["loading"; "success"; "error"].

(** What one call of [updateStatusMessage] makes of the status element. *)
Definition status_shown (message type : string) (e : Element) : Element :=
  let e1 := set_classList (classList_remove styling_classes (classList e))
                          (set_textContent message e) in
  if truthy type
  then match classList_add type (classList e1) with
       | Normal l => set_classList l e1
       | Throw => e1
       end
  else e1.

(** The page after one call of [updateStatusMessage]. *)
Definition show_status (message type : string) (d : Document) : Document :=
  match getElementById "statusMessage" d with
  | Some i => update_at i (status_shown message type) d
  | None => d
  end.

(** What [disableMenuItems] writes to one menu item. *)
Definition item_shown (disabled : bool) (item : Element) : Element :=
  let item := set_disabled disabled item in
  if disabled
  then set_style_cursor "not-allowed" (set_style_opacity "0.6" item)
  else set_style_cursor "pointer" (set_style_opacity "1" item).

(** The page after [disableMenuItems]. *)
Definition menu_shown (disabled : bool) (d : Document) : Document :=
  map (fun e => if has_class "menu-item" e then item_shown disabled e else e) d.

Definition loading_message (itemName : option string) : string :=
  "Simulating REST API call for " ++ dquote ++ toString itemName ++ dquote ++ "...".

(** The status call made by the callback of an operation on [itemName]. *)
Definition outcome_call (itemName : option string) (success : bool) (currentTime : string)
  : string * string :=
  if success
  then ("✓ API call successful for " ++ dquote ++ toString itemName ++ dquote
          ++ " at " ++ currentTime, "success")
  else ("✗ API call failed for " ++ dquote ++ toString itemName ++ dquote
          ++ " at " ++ currentTime, "error").

(** [m] leaves the observation [proj] of the state as it was, whether it
    returns or throws. *)
Definition preserves {A X : Type} (proj : State -> X) (m : JS A) : Prop :=
  forall s, proj (snd (m s)) = proj s.

(** The part of the state that decides whether a call is in flight. *)
Definition flight (s : State) : bool * list Timer * list (nat * Listener) :=
  (isLoading s, timers s, listeners s).

Definition busy_advisory : string * string :=
  ("API call already in progress - Please wait", "error").

Definition tab_advisory : string * string :=
  ("Please wait for current operation to complete", "error").

(** State after a listener has only reported [call] on the status bar. *)
Definition advised (call : string * string) (s : State) : State :=
  mkState (currentTab s) (isLoading s) (timers s) (listeners s)
          (show_status (fst call) (snd call) (document s))
          (statusCalls s ++ [call]).

(** [this.getAttribute('data-item')] on the page of [s]. *)
Definition itemName_of (this : nat) (s : State) : option string :=
  match nth_error (document s) this with
  | Some e => data_item e
  | None => None
  end.

(** Busy with exactly one pending callback, or idle with none. *)
Definition single_flight (s : State) : Prop :=
  List.length (timers s) = if isLoading s then 1%nat else 0%nat.

(** How many of the three styling classes a class list carries. *)
Definition styling_count (l : list string) : nat :=
  List.length (filter (fun c => contains c l) styling_classes).

Definition sample_element (i : option string) (classes : list string)
           (tab item : option string) : Element :=
  mkElement i classes tab item false EmptyString EmptyString EmptyString.

(** Two tabs, two menu items and the status bar. *)
Definition sample_page : Document :=
  [ sample_element None ["tab-button"; "active"] (Some "tab1") None;
    sample_element None ["tab-button"] (Some "tab2") None;
    sample_element (Some "tab1") ["tab-content"; "active"] None None;
    sample_element (Some "tab2") ["tab-content"] None None;
    sample_element None ["menu-item"] None (Some "Pizza");
    sample_element None ["menu-item"] None (Some "Soda");
    sample_element (Some "statusMessage") ["status-message"] None None ].

(** A host that rejects every selector outside the modelled fragment and a
    prototype without members: enough for the sample page. *)
Definition strict_host : string -> Document -> Completion (option nat) :=
  fun _ _ => Throw.

Definition bare_prototype : string -> option string := fun _ => None.

(** The sample page after a click on Pizza. *)
Definition sample_busy : State :=
  match run strict_host bare_prototype [Click 4 (1 # 2)] (initial sample_page) with
  | Some s => s
  | None => script_loaded []
  end.

(** Every menu item of the page is enabled and styled as such. *)
Definition menu_enabled (d : Document) : Prop :=
  forall e, In e d -> has_class "menu-item" e = true ->
            disabled e = false /\ style_opacity e = "1" /\ style_cursor e = "pointer".

(** The highlighting of the page: which elements carry the class [active]. *)
Definition active_flags (d : Document) : list bool := map (has_class "active") d.

(** Successes among the [n] equally spaced draws [0/n, 1/n, ..., (n-1)/n]. *)
Definition grid_successes (n : positive) : nat :=
  List.length (filter (fun k => success_of (Z.of_nat k # n)) (seq 0 (Pos.to_nat n))).

(** The common shape of the two outcome reports. *)
Definition outcome_template (mark word class : string) (itemName : option string)
           (currentTime : string) : string * string :=
  (mark ++ " API call " ++ word ++ " for " ++ dquote ++ toString itemName ++ dquote
     ++ " at " ++ currentTime,
   class).

(** A page whose only menu item has no [data-item] attribute. *)
Definition nameless_page : Document :=
  [ sample_element None ["menu-item"] None None;
    sample_element (Some "statusMessage") [] None None ].

(** A page with one menu item named X and a status bar. *)
Definition x_page : Document :=
  [ sample_element None ["menu-item"] None (Some "X");
    sample_element (Some "statusMessage") [] None None ].

(** The class list that one call of [updateStatusMessage] leaves on the
    status element whose class list was [l]. *)
Definition status_classes (type : string) (l : list string) : list string :=
  let l0 := classList_remove styling_classes l in
  if truthy type && negb (has_whitespace type)
  then (if contains type l0 then l0 else (l0 ++ [type])%list)
  else l0.

(** The globals of the script and what the browser holds for it. *)
Definition globals (s : State)
  : option string * bool * list Timer * list (nat * Listener) :=
  (currentTab s, isLoading s, timers s, listeners s).

(** [e.classList.add('active')] and [e.classList.remove('active')]. *)
Definition activated (e : Element) : Element :=
  set_classList (if contains "active" (classList e)
                 then classList e
                 else (classList e ++ ["active"])%list) e.

Definition deactivated (e : Element) : Element :=
  set_classList (classList_remove ["active"] (classList e)) e.

(** [o] refers to position [i]. *)
Definition is_node (o : option nat) (i : nat) : bool :=
  match o with
  | Some j => (j =? i)%nat
  | None => false
  end.

Definition activate_at (o : option nat) (d : Document) : Document :=
  match o with
  | Some i => update_at i activated d
  | None => d
  end.

(** Every element with class [c] loses [active]. *)
Definition deactivate_class (c : string) (d : Document) : Document :=
  map (fun e => if has_class c e then deactivated e else e) d.

(** The first element whose [data-tab] is [v]. *)
Definition data_tab_is (v : string) (e : Element) : bool :=
  match data_tab e with
  | Some a => String.eqb a v
  | None => false
  end.

(** The last three highlighting steps of [switchToTab], on the page [d1]
    whose tab buttons are already unlit, when the selector found [o]. *)
Definition switched_from (o : option nat) (v : string) (d1 : Document) : Document :=
  let d2 := activate_at o d1 in
  let d3 := deactivate_class "tab-content" d2 in
  activate_at (getElementById v d3) d3.

(** The page after the four highlighting steps of [switchToTab] for a tab
    id that prints as [v] and that the selector string denotes verbatim. *)
Definition switched (v : string) (d : Document) : Document :=
  let d1 := deactivate_class "tab-button" d in
  switched_from (querySelector (data_tab_is v) d1) v d1.

(** The highlighting of element [e] at position [i] after a switch to [v]
    on page [d]. *)
Definition active_after (v : string) (d : Document) (i : nat) (e : Element) : bool :=
  if is_node (getElementById v d) i then true
  else if has_class "tab-content" e then false
  else if is_node (querySelector (data_tab_is v) d) i then true
  else if has_class "tab-button" e then false
  else has_class "active" e.

(** The classes the script adds and removes. *)
Definition transient_classes : list string := ["active"; "loading"; "success"; "error"].

Definition is_status_element (e : Element) : bool :=
  match el_id e with
  | Some x => String.eqb x "statusMessage"
  | None => false
  end.

(** What the script never changes of an element: its id, its two data
    attributes and its classes other than the transient ones; the disabled
    flag and the two inline styles unless it is a menu item; the text unless
    its id is [statusMessage]. *)
Definition skeleton (e : Element)
  : option string * option string * option string * list string
    * option (bool * string * string) * option string :=
  (el_id e, data_tab e, data_item e,
   classList_remove transient_classes (classList e),
   if has_class "menu-item" e
   then None
   else Some (disabled e, style_opacity e, style_cursor e),
   if is_status_element e then None else Some (textContent e)).

(** What the lookup of the tab button in [switchToTab] gives on the page
    [d1]: the modelled query, or the answer of the browser. *)
Definition select_tab_button
           (host_querySelector : string -> Document -> Completion (option nat))
           (tabId : option string) (d1 : Document) : Completion (option nat) :=
  if css_plain (toString tabId)
  then Normal (querySelector (data_tab_is (toString tabId)) d1)
  else host_querySelector ("[data-tab=" ++ dquote ++ toString tabId ++ dquote ++ "]") d1.

(** The element at [this] on page [d] has class [c]. *)
Definition node_has_class (c : string) (d : Document) (this : nat) : bool :=
  match nth_error d this with
  | Some e => has_class c e
  | None => false
  end.

(** [t] is the tab the script starts with or the [data-tab] of a tab button
    of page [d]. *)
Definition known_tab (d : Document) (t : option string) : Prop :=
  t = Some "tab1"
  \/ exists i e,
      nth_error d i = Some e /\ has_class "tab-button" e = true /\ t = data_tab e.

(** What every state reached from page [d] satisfies. *)
Definition page_invariant (d : Document) (s : State) : Prop :=
  listeners s = listeners (initial d)
  /\ map skeleton (document s) = map skeleton d
  /\ known_tab d (currentTab s).

(** Status calls that announce a call, and status calls that report its
    outcome. *)
Definition is_loading_call (call : string * string) : bool :=
  String.eqb (snd call) "loading".

Definition is_outcome_call (call : string * string) : bool :=
  prefix "✓ API call successful for " (fst call)
  || prefix "✗ API call failed for " (fst call).

Definition count_calls (f : string * string -> bool) (l : list (string * string)) : nat :=
  List.length (filter f l).

(** Every announced call has been reported, but the one in flight. *)
Definition accounted (s : State) : Prop :=
  count_calls is_loading_call (statusCalls s)
  = (count_calls is_outcome_call (statusCalls s) + if isLoading s then 1 else 0)%nat.

(** The state after the listeners that [initial d] registered on element
    [e] have run for a click on it at position [target]. *)
Definition clicked
           (host_querySelector : string -> Document -> Completion (option nat))
           (object_prototype_get : string -> option string)
           (e : Element) (target : nat) (random : Q) (s : State) : State :=
  let s1 := if has_class "tab-button" e
            then snd (tabButtonClick host_querySelector object_prototype_get target s)
            else s in
  if has_class "menu-item" e
  then snd (menuItemClick target random s1)
  else s1.

(** * Properties *)

(** ** The sample page at work *)

(** Pizza is ordered with a draw that gives 1500 ms; Soda is clicked while
    the call is pending and only gets the advisory; the callback then
    reports Pizza, once. *)
Example pizza_then_soda :
  option_map statusCalls
    (run strict_host bare_prototype
         [Click 4 (1 # 4); Click 5 (1 # 3); TimerFired 0 (1 # 2) "12:00:00"]
         (initial sample_page))
  = Some [ ("Application initialized - Ready to use", EmptyString);
           (loading_message (Some "Pizza"), "loading");
           busy_advisory;
           outcome_call (Some "Pizza") true "12:00:00" ].
Proof. vm_compute; reflexivity. Qed.

Example pizza_delay :
  option_map timers
    (run strict_host bare_prototype [Click 4 (1 # 4)] (initial sample_page))
  = Some [mkTimer (Some "Pizza") (6000 # 4)].
Proof. vm_compute; reflexivity. Qed.

(** A click on the second tab while idle moves the highlighting; the same
    click while Pizza is pending moves nothing. *)
Example tab_switch_idle :
  option_map (fun s => (currentTab s, active_flags (document s)))
    (run strict_host bare_prototype [Click 1 0] (initial sample_page))
  = Some (Some "tab2", [false; true; false; true; false; false; false]).
Proof. vm_compute; reflexivity. Qed.

Example tab_switch_busy :
  option_map (fun s => (currentTab s, active_flags (document s)))
    (run strict_host bare_prototype [Click 4 (1 # 4); Click 1 0] (initial sample_page))
  = Some (Some "tab1", [true; false; true; false; false; false; false]).
Proof. vm_compute; reflexivity. Qed.

(** An item whose [data-item] is the empty string runs the same cycle. *)
Example empty_item_name :
  option_map statusCalls
    (run strict_host bare_prototype [Click 0 (1 # 4); TimerFired 0 0 "12:00:00"]
         (initial [ sample_element None ["menu-item"] None (Some EmptyString);
                    sample_element (Some "statusMessage") [] None None ]))
  = Some [ ("Application initialized - Ready to use", EmptyString);
           (loading_message (Some EmptyString), "loading");
           outcome_call (Some EmptyString) false "12:00:00" ].
Proof. vm_compute; reflexivity. Qed.

(** ** Element references and node lists *)

Lemma nth_error_update_at_same (i : nat) (f : Element -> Element) (d : Document) :
  nth_error (update_at i f d) i = option_map f (nth_error d i).
Proof.
  revert i; induction d as [|e d IH]; intros [|i]; simpl; auto.
Qed.

Lemma nth_error_update_at_other (i j : nat) (f : Element -> Element) (d : Document) :
  i <> j -> nth_error (update_at i f d) j = nth_error d j.
Proof.
  revert i j; induction d as [|e d IH]; intros [|i] [|j] Hij; simpl; auto;
    try congruence.
Qed.

Lemma update_at_update_at (i : nat) (f g : Element -> Element) (d : Document) :
  update_at i f (update_at i g d) = update_at i (fun e => f (g e)) d.
Proof.
  revert i; induction d as [|e d IH]; intros [|i]; simpl; auto.
  now rewrite IH.
Qed.

Lemma forEach_shift (l : list nat) (f : Element -> Element) (e : Element) (d : Document) :
  forEach (map S l) f (e :: d) = e :: forEach l f d.
Proof.
  unfold forEach; revert d; induction l as [|i l IH]; intros d; simpl; auto.
Qed.

(** A [forEach] over the nodes selected by [p] rewrites exactly those nodes. *)
Lemma forEach_querySelectorAll (p : Element -> bool) (f : Element -> Element) (d : Document) :
  forEach (querySelectorAll p d) f d = map (fun e => if p e then f e else e) d.
Proof.
  induction d as [|e d IH]; simpl; auto.
  destruct (p e); simpl.
  - change (forEach (map S (querySelectorAll p d)) f (f e :: d)
            = f e :: map (fun e0 => if p e0 then f e0 else e0) d).
    now rewrite forEach_shift, IH.
  - change (forEach (map S (querySelectorAll p d)) f (e :: d)
            = e :: map (fun e0 => if p e0 then f e0 else e0) d).
    now rewrite forEach_shift, IH.
Qed.

Lemma querySelectorAll_sound (p : Element -> bool) (d : Document) (i : nat) :
  In i (querySelectorAll p d) ->
  exists e, nth_error d i = Some e /\ p e = true.
Proof.
  revert i; induction d as [|e d IH]; simpl; intros i Hi; [contradiction|].
  apply in_app_or in Hi; destruct Hi as [Hi|Hi].
  - destruct (p e) eqn:Hp; simpl in Hi; [|contradiction].
    destruct Hi as [<-|[]]; exists e; auto.
  - apply in_map_iff in Hi; destruct Hi as [j [<- Hj]]; simpl; auto.
Qed.

Lemma querySelector_sound (p : Element -> bool) (d : Document) (i : nat) :
  querySelector p d = Some i ->
  exists e, nth_error d i = Some e /\ p e = true.
Proof.
  unfold querySelector; intros H; apply querySelectorAll_sound.
  destruct (querySelectorAll p d); simpl in H; [discriminate|].
  injection H as ->; now left.
Qed.

Lemma getElementById_sound (x : string) (d : Document) (i : nat) :
  getElementById x d = Some i ->
  exists e, nth_error d i = Some e /\ el_id e = Some x.
Proof.
  unfold getElementById; destruct (truthy x); [|discriminate].
  intros H; apply querySelector_sound in H; destruct H as [e [He Hp]].
  exists e; split; auto.
  destruct (el_id e) as [j|]; [|discriminate].
  apply String.eqb_eq in Hp; congruence.
Qed.

Lemma update_at_ext (i : nat) (f g : Element -> Element) (d : Document) (e : Element) :
  nth_error d i = Some e -> f e = g e -> update_at i f d = update_at i g d.
Proof.
  revert i; induction d as [|x d IH]; intros [|i]; simpl; try discriminate.
  - intros [= ->] ->; reflexivity.
  - intros H1 H2; f_equal; eauto.
Qed.

(** ** The status bar *)

Lemma updateStatusMessage_run (message type : string) (s : State) :
  exists c,
    updateStatusMessage message type s =
      (c, mkState (currentTab s) (isLoading s) (timers s) (listeners s)
                  (show_status message type (document s))
                  (statusCalls s ++ [(message, type)]))
    /\ (has_whitespace type = false -> c = Normal tt).
Proof.
  unfold show_status, updateStatusMessage, bind, record_statusCall, get_document; simpl.
  destruct (getElementById "statusMessage" (document s)) as [i|] eqn:Hid.
  2:{ exists (Normal tt); split; auto. }
  destruct (getElementById_sound _ _ _ Hid) as [e [He _]].
  unfold write, bind, get_document, set_document; simpl.
  rewrite update_at_update_at.
  destruct (truthy type) eqn:Ht.
  2:{ exists (Normal tt); split; auto.
      unfold ret; do 2 f_equal.
      apply update_at_ext with (e := e); auto.
      unfold status_shown; now rewrite Ht. }
  unfold classList_add_at, bind, get_document, set_document; simpl.
  rewrite nth_error_update_at_same, He; simpl.
  destruct (classList_add type _) as [l|] eqn:Hadd.
  - exists (Normal tt); split; auto.
    rewrite update_at_update_at; do 2 f_equal.
    apply update_at_ext with (e := e); auto.
    unfold status_shown; rewrite Ht; simpl.
    unfold styling_classes; now rewrite Hadd.
  - exists Throw; split.
    + do 2 f_equal.
      apply update_at_ext with (e := e); auto.
      unfold status_shown; rewrite Ht; simpl.
      unfold styling_classes; now rewrite Hadd.
    + intros Hws; unfold classList_add in Hadd.
      rewrite Ht, Hws in Hadd; discriminate.
Qed.

Lemma updateStatusMessage_normal (message type : string) (s : State) :
  has_whitespace type = false ->
  updateStatusMessage message type s =
    (Normal tt, mkState (currentTab s) (isLoading s) (timers s) (listeners s)
                        (show_status message type (document s))
                        (statusCalls s ++ [(message, type)])).
Proof.
  intros Hws; destruct (updateStatusMessage_run message type s) as [c [Hrun Hc]].
  now rewrite Hrun, (Hc Hws).
Qed.

(** ** Menu items *)

Lemma disableMenuItems_run (disabled : bool) (s : State) :
  disableMenuItems disabled s =
    (Normal tt, mkState (currentTab s) (isLoading s) (timers s) (listeners s)
                        (menu_shown disabled (document s)) (statusCalls s)).
Proof.
  unfold disableMenuItems, bind, get_document, set_document; simpl.
  now rewrite forEach_querySelectorAll.
Qed.

(** ** The simulated call *)

Lemma simulateRestApiCall_run (itemName : option string) (random : Q) (s : State) :
  simulateRestApiCall itemName random s =
    (Normal tt,
     mkState (currentTab s) true
             (timers s ++ [mkTimer itemName (delay_of random)])
             (listeners s)
             (menu_shown true (show_status (loading_message itemName) "loading" (document s)))
             (statusCalls s ++ [(loading_message itemName, "loading")])).
Proof.
  unfold simulateRestApiCall, bind, set_isLoading.
  rewrite updateStatusMessage_normal by reflexivity; cbv beta iota.
  rewrite disableMenuItems_run; reflexivity.
Qed.

Lemma timeoutCallback_run (itemName : option string) (random : Q) (currentTime : string)
      (s : State) :
  let call := outcome_call itemName (success_of random) currentTime in
  timeoutCallback itemName random currentTime s =
    (Normal tt,
     mkState (currentTab s) false (timers s) (listeners s)
             (menu_shown false (show_status (fst call) (snd call) (document s)))
             (statusCalls s ++ [call])).
Proof.
  unfold timeoutCallback, outcome_call, bind, handleApiSuccess, handleApiError.
  destruct (success_of random); cbv beta iota;
    rewrite updateStatusMessage_normal by reflexivity; cbv beta iota;
    unfold set_isLoading; rewrite disableMenuItems_run; reflexivity.
Qed.

(** ** Frame rules *)

Lemma preserves_ret {A X : Type} (proj : State -> X) (a : A) :
  preserves proj (ret a).
Proof. intros s; reflexivity. Qed.

Lemma preserves_bind {A B X : Type} (proj : State -> X) (m : JS A) (k : A -> JS B) :
  preserves proj m -> (forall a, preserves proj (k a)) -> preserves proj (bind m k).
Proof.
  intros Hm Hk s; unfold bind.
  specialize (Hm s); destruct (m s) as [[a|] s']; simpl in *.
  - now rewrite Hk.
  - assumption.
Qed.

Lemma preserves_flight_updateStatusMessage (message type : string) :
  preserves flight (updateStatusMessage message type).
Proof.
  intros s; destruct (updateStatusMessage_run message type s) as [c [-> _]].
  reflexivity.
Qed.

Lemma preserves_flight_classList_add_at (node : nat) (tok : string) :
  preserves flight (classList_add_at node tok).
Proof.
  intros s; unfold classList_add_at, bind, get_document; simpl.
  destruct (nth_error (document s) node) as [e|]; [|reflexivity].
  destruct (classList_add tok (classList e)); reflexivity.
Qed.

(** Primitive reads and writes of the other state components. *)
Lemma preserves_flight_set_currentTab (t : option string) :
  preserves flight (set_currentTab t).
Proof. intros s; reflexivity. Qed.

Lemma preserves_flight_set_document (d : Document) :
  preserves flight (set_document d).
Proof. intros s; reflexivity. Qed.

Lemma preserves_flight_get_document : preserves flight get_document.
Proof. intros s; reflexivity. Qed.

Lemma preserves_flight_get_isLoading : preserves flight get_isLoading.
Proof. intros s; reflexivity. Qed.

Lemma preserves_flight_getAttribute (attr : Element -> option string) (this : nat) :
  preserves flight (getAttribute attr this).
Proof. intros s; reflexivity. Qed.

Ltac frame_step :=
  first
    [ apply preserves_flight_updateStatusMessage
    | apply preserves_flight_classList_add_at
    | apply preserves_flight_set_currentTab
    | apply preserves_flight_set_document
    | apply preserves_flight_get_document
    | apply preserves_flight_get_isLoading
    | apply preserves_flight_getAttribute
    | apply preserves_ret
    | match goal with
      | |- preserves _ (match ?x with _ => _ end) => destruct x
      | |- preserves _ (if ?x then _ else _) => destruct x
      end
    | apply preserves_bind; [| intros ?] ].

Section HostFrame.

Variable host_querySelector : string -> Document -> Completion (option nat).
Variable object_prototype_get : string -> option string.

Lemma preserves_flight_querySelector_data_tab (tabId : option string) :
  preserves flight (querySelector_data_tab host_querySelector tabId).
Proof.
  intros s; unfold querySelector_data_tab.
  destruct (css_plain (toString tabId)); reflexivity.
Qed.

Lemma preserves_flight_switchToTab (tabId : option string) :
  preserves flight (switchToTab host_querySelector object_prototype_get tabId).
Proof.
  unfold switchToTab.
  repeat first [ apply preserves_flight_querySelector_data_tab | frame_step ].
Qed.

Lemma preserves_flight_tabButtonClick (this : nat) :
  preserves flight (tabButtonClick host_querySelector object_prototype_get this).
Proof.
  unfold tabButtonClick.
  repeat first [ apply preserves_flight_switchToTab | frame_step ].
Qed.

End HostFrame.

(** ** The click listeners *)

Lemma menuItemClick_busy (this : nat) (random : Q) (s : State) :
  isLoading s = true ->
  menuItemClick this random s = (Normal tt, advised busy_advisory s).
Proof.
  intros Hbusy; unfold menuItemClick, bind, get_isLoading; rewrite Hbusy.
  now rewrite updateStatusMessage_normal.
Qed.

Lemma menuItemClick_idle (this : nat) (random : Q) (s : State) :
  isLoading s = false ->
  menuItemClick this random s = simulateRestApiCall (itemName_of this s) random s.
Proof.
  intros Hidle; unfold menuItemClick, bind, get_isLoading; rewrite Hidle.
  reflexivity.
Qed.

(** ** The single-flight invariant *)

Lemma flight_single_flight (s s' : State) :
  flight s' = flight s -> single_flight s -> single_flight s'.
Proof.
  unfold flight, single_flight; intros [= -> -> _]; auto.
Qed.

Section HostInvariant.

Variable host_querySelector : string -> Document -> Completion (option nat).
Variable object_prototype_get : string -> option string.

Lemma tabButtonClick_busy (this : nat) (s : State) :
  isLoading s = true ->
  tabButtonClick host_querySelector object_prototype_get this s
  = (Normal tt, advised tab_advisory s).
Proof.
  intros Hbusy; unfold tabButtonClick, bind, get_isLoading.
  rewrite Hbusy; now rewrite updateStatusMessage_normal.
Qed.

(** While a call is in flight every listener only reports an advisory. *)
Lemma run_listener_busy (l : Listener) (this : nat) (random : Q) (s : State) :
  isLoading s = true ->
  exists call,
    snd (run_listener host_querySelector object_prototype_get l this random s)
    = advised call s.
Proof.
  intros Hbusy; destruct l; simpl.
  - exists tab_advisory.
    now rewrite tabButtonClick_busy.
  - exists busy_advisory.
    now rewrite menuItemClick_busy.
Qed.

Lemma run_listener_single_flight (l : Listener) (this : nat) (random : Q) (s : State) :
  single_flight s ->
  single_flight (snd (run_listener host_querySelector object_prototype_get l this random s)).
Proof.
  intros Hinv; destruct l; simpl.
  - apply flight_single_flight with (s := s); auto.
    apply preserves_flight_tabButtonClick.
  - destruct (isLoading s) eqn:Hl.
    + rewrite menuItemClick_busy by assumption.
      unfold single_flight in *; simpl; now rewrite Hl in *.
    + rewrite menuItemClick_idle, simulateRestApiCall_run by assumption.
      unfold single_flight in *; simpl; rewrite Hl in Hinv.
      rewrite length_app, Hinv; reflexivity.
Qed.

(** An invariant of every listener is an invariant of a click. *)
Lemma dispatch_invariant (P : State -> Prop) :
  (forall l this random s,
      P s -> P (snd (run_listener host_querySelector object_prototype_get l this random s))) ->
  forall ls target random s,
    P s -> P (dispatch host_querySelector object_prototype_get ls target random s).
Proof.
  intros Hstep ls target random.
  induction ls as [|[node l] ls IH]; intros s Hs; simpl; auto.
  destruct (node =? target)%nat; auto.
Qed.

Lemma step_single_flight (e : Event) (s s' : State) :
  single_flight s ->
  step host_querySelector object_prototype_get e s = Some s' ->
  single_flight s'.
Proof.
  intros Hinv; destruct e as [target random|i random now]; simpl.
  - destruct (target <? List.length (document s))%nat; [|discriminate].
    intros [= <-].
    apply (dispatch_invariant single_flight); auto.
    intros; now apply run_listener_single_flight.
  - destruct (nth_error (timers s) i) as [t|] eqn:Ht; [|discriminate].
    intros [= <-]; rewrite timeoutCallback_run; simpl.
    unfold single_flight in *; simpl.
    destruct (isLoading s).
    + destruct (timers s) as [|t0 [|t1 ts]]; try discriminate.
      destruct i as [|[|i]]; try discriminate. reflexivity.
    + destruct (timers s); [|discriminate].
      destruct i; discriminate.
Qed.

Lemma initial_single_flight (d : Document) : single_flight (initial d).
Proof.
  unfold initial, onDOMContentLoaded, initializeTabSystem, initializeMenuItems,
    bind, get_document, addEventListeners; simpl.
  rewrite updateStatusMessage_normal by reflexivity.
  reflexivity.
Qed.

Lemma run_single_flight (es : list Event) (s s' : State) :
  single_flight s ->
  run host_querySelector object_prototype_get es s = Some s' ->
  single_flight s'.
Proof.
  revert s; induction es as [|e es IH]; intros s Hinv; simpl.
  - now intros [= <-].
  - destruct (step host_querySelector object_prototype_get e s) as [s1|] eqn:Hstep;
      [|discriminate].
    apply IH. eapply step_single_flight; eauto.
Qed.

(** While a call is in flight a click schedules nothing and ends nothing. *)
Lemma dispatch_busy (ls : list (nat * Listener)) (target : nat) (random : Q) (s : State) :
  isLoading s = true ->
  let s' := dispatch host_querySelector object_prototype_get ls target random s in
  flight s' = flight s /\ currentTab s' = currentTab s.
Proof.
  intros Hbusy.
  apply (dispatch_invariant
           (fun s1 => flight s1 = flight s /\ currentTab s1 = currentTab s)); auto.
  intros l this r s1 [Hf Ht].
  assert (Hb1 : isLoading s1 = true).
  { unfold flight in Hf; injection Hf as -> _ _; exact Hbusy. }
  destruct (run_listener_busy l this r s1 Hb1) as [call ->].
  split; [rewrite <- Hf; reflexivity | rewrite <- Ht; reflexivity].
Qed.

End HostInvariant.

(** ** Class lists *)

Lemma contains_app (c : string) (l1 l2 : list string) :
  contains c (l1 ++ l2)%list = contains c l1 || contains c l2.
Proof. unfold contains; apply existsb_app. Qed.

Lemma contains_classList_remove (c : string) (toks l : list string) :
  contains c (classList_remove toks l) = contains c l && negb (contains c toks).
Proof.
  unfold classList_remove; induction l as [|x l IH]; simpl; auto.
  destruct (contains x toks) eqn:Hx; simpl.
  - rewrite IH. destruct (String.eqb_spec c x) as [->|Hne]; simpl; auto.
    rewrite Hx; simpl. now rewrite andb_false_r.
  - rewrite IH. destruct (String.eqb_spec c x) as [->|Hne]; simpl; auto.
    now rewrite Hx.
Qed.

(** Adding a token only changes the membership of that token. *)
Lemma contains_classList_add (c tok : string) (l l' : list string) :
  classList_add tok l = Normal l' ->
  contains c l' = contains c l || String.eqb c tok.
Proof.
  unfold classList_add.
  destruct (negb (truthy tok)); [discriminate|].
  destruct (has_whitespace tok); [discriminate|].
  destruct (contains tok l) eqn:Hin; intros [= <-].
  - destruct (String.eqb_spec c tok) as [->|Hne].
    + now rewrite Hin.
    + now rewrite orb_false_r.
  - rewrite contains_app; simpl. now rewrite orb_false_r.
Qed.

(** Membership of the classes of the status element after a call. *)
Lemma contains_status_shown (c message type : string) (e : Element) :
  exists added : bool,
    contains c (classList (status_shown message type e)) =
      (contains c (classList e) && negb (contains c styling_classes))
      || (added && String.eqb c type).
Proof.
  unfold status_shown; cbv zeta; cbn [classList set_classList set_textContent].
  destruct (truthy type).
  - destruct (classList_add type _) as [l|] eqn:Hadd;
      cbn [classList set_classList set_textContent].
    + exists true; rewrite (contains_classList_add _ _ _ _ Hadd).
      now rewrite contains_classList_remove.
    + exists false; rewrite contains_classList_remove. now rewrite orb_false_r.
  - cbn [classList set_classList set_textContent].
    exists false; rewrite contains_classList_remove. now rewrite orb_false_r.
Qed.

Lemma map_update_at {X : Type} (g : Element -> X) (i : nat) (f : Element -> Element)
      (d : Document) :
  (forall e, g (f e) = g e) -> map g (update_at i f d) = map g d.
Proof.
  intros Hg; revert i; induction d as [|e d IH]; intros [|i]; simpl; auto.
  - now rewrite Hg.
  - now rewrite IH.
Qed.

Lemma map_show_status {X : Type} (g : Element -> X) (message type : string) (d : Document) :
  (forall e, g (status_shown message type e) = g e) ->
  map g (show_status message type d) = map g d.
Proof.
  intros Hg; unfold show_status.
  destruct (getElementById "statusMessage" d); auto using map_update_at.
Qed.

Lemma el_id_status_shown (message type : string) (e : Element) :
  el_id (status_shown message type e) = el_id e.
Proof.
  unfold status_shown; destruct (truthy type); simpl; auto.
  destruct (classList_add type _); reflexivity.
Qed.

Lemma querySelectorAll_ext {X : Type} (g : Element -> X) (q : X -> bool) (d d' : Document) :
  map g d = map g d' ->
  querySelectorAll (fun e => q (g e)) d = querySelectorAll (fun e => q (g e)) d'.
Proof.
  revert d'; induction d as [|e d IH]; intros [|e' d']; simpl; try discriminate; auto.
  intros [= He Hd]; rewrite He, (IH d' Hd); reflexivity.
Qed.

(** [getElementById] only looks at the ids. *)
Lemma getElementById_ext (x : string) (d d' : Document) :
  map el_id d = map el_id d' -> getElementById x d = getElementById x d'.
Proof.
  intros Hids; unfold getElementById, querySelector.
  destruct (truthy x); auto.
  now rewrite (querySelectorAll_ext el_id
                 (fun o => match o with Some i => String.eqb i x | None => false end)
                 d d' Hids).
Qed.

Lemma getElementById_show_status (x message type : string) (d : Document) :
  getElementById x (show_status message type d) = getElementById x d.
Proof.
  apply getElementById_ext, map_show_status, el_id_status_shown.
Qed.

Lemma styling_count_status_shown (message type : string) (e : Element) :
  (styling_count (classList (status_shown message type e)) <= 1)%nat.
Proof.
  unfold styling_count, styling_classes; cbn [filter].
  destruct (contains_status_shown "loading" message type e) as [a1 ->].
  destruct (contains_status_shown "success" message type e) as [a2 ->].
  destruct (contains_status_shown "error" message type e) as [a3 ->].
  replace (contains "loading" styling_classes) with true by reflexivity.
  replace (contains "success" styling_classes) with true by reflexivity.
  replace (contains "error" styling_classes) with true by reflexivity.
  cbn [negb]; rewrite !andb_false_r; cbn [orb].
  destruct (String.eqb_spec "loading" type) as [H1|H1];
    destruct (String.eqb_spec "success" type) as [H2|H2];
    destruct (String.eqb_spec "error" type) as [H3|H3];
    try congruence;
    destruct a1, a2, a3; simpl; lia.
Qed.

(** ** Single flight *)

(** C1. Single flight.  In every state the page reaches from its initial
    state, by any sequence of clicks and timer callbacks, the busy flag is set
    exactly when one completion callback is pending and clear exactly when
    none is, so at most one operation is in flight.  While the flag is set a
    click on any element, menu items included, is rejected: it leaves the
    flag set and the pending callback as it was.  Hence a click that does
    schedule a callback starts from the idle state with nothing pending and
    leaves exactly that one callback. *)
Theorem single_flight_invariant
        (host_querySelector : string -> Document -> Completion (option nat))
        (object_prototype_get : string -> option string)
        (d : Document) (es : list Event) (s : State) :
  run host_querySelector object_prototype_get es (initial d) = Some s ->
  (isLoading s = true <-> exists t, timers s = [t])
  /\ (isLoading s = false <-> timers s = [])
  /\ (isLoading s = true ->
      forall target random s',
        step host_querySelector object_prototype_get (Click target random) s = Some s' ->
        isLoading s' = true /\ timers s' = timers s)
  /\ (forall target random s',
         step host_querySelector object_prototype_get (Click target random) s = Some s' ->
         timers s' <> timers s ->
         isLoading s = false /\ timers s = [] /\ exists t, timers s' = [t]).
Proof.
  intros Hrun.
  assert (Hinv : single_flight s).
  { eapply run_single_flight; [apply initial_single_flight | exact Hrun]. }
  assert (Hrej : isLoading s = true ->
                 forall target random s',
                   step host_querySelector object_prototype_get (Click target random) s
                   = Some s' ->
                   isLoading s' = true /\ timers s' = timers s).
  { intros Hbusy target random s' Hstep; simpl in Hstep.
    destruct (target <? List.length (document s))%nat; [|discriminate].
    injection Hstep as <-.
    destruct (dispatch_busy host_querySelector object_prototype_get
                (listeners s) target random s Hbusy) as [Hf _].
    unfold flight in Hf; injection Hf as -> -> _; auto. }
  split; [|split; [|split; [exact Hrej|]]].
  - unfold single_flight in Hinv; split.
    + intros Hb; rewrite Hb in Hinv.
      destruct (timers s) as [|t [|t' ts]]; try discriminate. now exists t.
    + intros [t Ht]; rewrite Ht in Hinv.
      destruct (isLoading s); [reflexivity | discriminate].
  - unfold single_flight in Hinv; split.
    + intros Hb; rewrite Hb in Hinv.
      destruct (timers s); [reflexivity | discriminate].
    + intros Ht; rewrite Ht in Hinv.
      destruct (isLoading s); [discriminate | reflexivity].
  - intros target random s' Hstep Hchanged.
    assert (Hinv' : single_flight s').
    { eapply step_single_flight; eauto. }
    destruct (isLoading s) eqn:Hl.
    + destruct (Hrej eq_refl target random s' Hstep) as [_ Hsame]; contradiction.
    + unfold single_flight in Hinv, Hinv'; rewrite Hl in Hinv.
      destruct (timers s); [|discriminate].
      split; [reflexivity|]; split; [reflexivity|].
      destruct (isLoading s'), (timers s') as [|t [|t' ts]]; try discriminate.
      * now exists t.
      * contradiction.
Qed.

Lemma single_flight_invariant_witness :
  run strict_host bare_prototype [Click 4 (1 # 2)] (initial sample_page) = Some sample_busy
  /\ (isLoading sample_busy = true <-> exists t, timers sample_busy = [t])
  /\ (isLoading sample_busy = false <-> timers sample_busy = [])
  /\ (isLoading sample_busy = true ->
      forall target random s',
        step strict_host bare_prototype (Click target random) sample_busy = Some s' ->
        isLoading s' = true /\ timers s' = timers sample_busy)
  /\ (forall target random s',
         step strict_host bare_prototype (Click target random) sample_busy = Some s' ->
         timers s' <> timers sample_busy ->
         isLoading sample_busy = false
         /\ timers sample_busy = []
         /\ exists t, timers s' = [t]).
Proof.
  split; [vm_compute; reflexivity|].
  apply (single_flight_invariant strict_host bare_prototype sample_page [Click 4 (1 # 2)]).
  vm_compute; reflexivity.
Defined.

(** ** Completion *)

Lemma menu_shown_enabled (d : Document) : menu_enabled (menu_shown false d).
Proof.
  intros e He Hcls; unfold menu_shown in He.
  apply in_map_iff in He; destruct He as [x [<- _]].
  destruct (has_class "menu-item" x) eqn:Hx; [repeat split|congruence].
Qed.

(** C2. Completion returns to idle.  In every reachable state with the busy
    flag set one callback is pending; it can run, for any random draw and
    clock reading, and when it has run the flag is clear, no callback is
    pending, every menu item is enabled again and one outcome has been
    reported; a menu click issued in that state is accepted: it sets the flag
    and schedules the callback of the clicked item. *)
Theorem completion_returns_to_idle
        (host_querySelector : string -> Document -> Completion (option nat))
        (object_prototype_get : string -> option string)
        (d : Document) (es : list Event) (s : State) :
  run host_querySelector object_prototype_get es (initial d) = Some s ->
  isLoading s = true ->
  exists t,
    timers s = [t]
    /\ forall random currentTime,
      exists s',
        step host_querySelector object_prototype_get
             (TimerFired 0 random currentTime) s = Some s'
        /\ isLoading s' = false
        /\ timers s' = []
        /\ menu_enabled (document s')
        /\ statusCalls s' =
             (statusCalls s
                ++ [outcome_call (timer_itemName t) (success_of random) currentTime])%list
        /\ forall this random',
            exists s'',
              menuItemClick this random' s' = (Normal tt, s'')
              /\ isLoading s'' = true
              /\ timers s'' = [mkTimer (itemName_of this s') (delay_of random')].
Proof.
  intros Hrun Hbusy.
  assert (Hinv : single_flight s).
  { eapply run_single_flight; [apply initial_single_flight | exact Hrun]. }
  unfold single_flight in Hinv; rewrite Hbusy in Hinv.
  destruct (timers s) as [|t [|t' ts]] eqn:Ht; try discriminate.
  exists t; split; [reflexivity|].
  intros random currentTime; simpl; rewrite Ht; simpl.
  rewrite timeoutCallback_run; simpl.
  eexists; split; [reflexivity|]; simpl; rewrite Ht.
  split; [reflexivity|].
  split; [reflexivity|].
  split; [apply menu_shown_enabled|].
  split; [reflexivity|].
  intros this random'.
  rewrite menuItemClick_idle by reflexivity.
  rewrite simulateRestApiCall_run; simpl.
  eexists; repeat split.
Qed.

Lemma completion_returns_to_idle_witness :
  run strict_host bare_prototype [Click 4 (1 # 2)] (initial sample_page) = Some sample_busy
  /\ isLoading sample_busy = true
  /\ exists t,
    timers sample_busy = [t]
    /\ forall random currentTime,
      exists s',
        step strict_host bare_prototype (TimerFired 0 random currentTime) sample_busy
          = Some s'
        /\ isLoading s' = false
        /\ timers s' = []
        /\ menu_enabled (document s')
        /\ statusCalls s' =
             (statusCalls sample_busy
                ++ [outcome_call (timer_itemName t) (success_of random) currentTime])%list
        /\ forall this random',
            exists s'',
              menuItemClick this random' s' = (Normal tt, s'')
              /\ isLoading s'' = true
              /\ timers s'' = [mkTimer (itemName_of this s') (delay_of random')].
Proof.
  split; [vm_compute; reflexivity|].
  split; [vm_compute; reflexivity|].
  apply (completion_returns_to_idle strict_host bare_prototype sample_page
           [Click 4 (1 # 2)]);
    vm_compute; reflexivity.
Defined.

(** ** Rejection *)

(** A valid [type] is among the classes of the status element after the call. *)
Lemma has_class_status_shown (message type : string) (e : Element) :
  truthy type = true -> has_whitespace type = false ->
  has_class type (status_shown message type e) = true.
Proof.
  intros Ht Hws; unfold has_class, status_shown; cbv zeta; rewrite Ht.
  cbn [classList set_classList set_textContent].
  destruct (classList_add type _) as [l|] eqn:Hadd.
  - cbn [classList set_classList].
    rewrite (contains_classList_add _ _ _ _ Hadd), String.eqb_refl.
    apply orb_true_r.
  - unfold classList_add in Hadd; rewrite Ht, Hws in Hadd; discriminate.
Qed.

(** C3. Rejection is atomic.  A menu click that arrives while the busy flag
    is set returns at once and changes neither the flag, nor the pending
    callbacks (so neither the request in flight nor its timer, and nothing is
    queued for later), nor the listeners, nor the current tab; it is reported
    by one call of the status function with the busy advisory, which rewrites
    the status element when the page has one and no other element. *)
Theorem rejection_is_atomic (this : nat) (random : Q) (s : State) :
  isLoading s = true ->
  exists s',
    menuItemClick this random s = (Normal tt, s')
    /\ isLoading s' = true
    /\ timers s' = timers s
    /\ listeners s' = listeners s
    /\ currentTab s' = currentTab s
    /\ statusCalls s' =
         (statusCalls s ++ [("API call already in progress - Please wait", "error")])%list
    /\ (forall i, getElementById "statusMessage" (document s) <> Some i ->
                  nth_error (document s') i = nth_error (document s) i)
    /\ (forall i, getElementById "statusMessage" (document s) = Some i ->
                  exists e',
                    nth_error (document s') i = Some e'
                    /\ textContent e' = "API call already in progress - Please wait"
                    /\ has_class "error" e' = true).
Proof.
  intros Hbusy; rewrite menuItemClick_busy by assumption.
  eexists; split; [reflexivity|]; simpl.
  repeat split; auto.
  - intros i Hi; unfold show_status.
    destruct (getElementById "statusMessage" (document s)) as [j|]; auto.
    apply nth_error_update_at_other; congruence.
  - intros i Hi; unfold show_status; rewrite Hi.
    destruct (getElementById_sound _ _ _ Hi) as [e [He _]].
    rewrite nth_error_update_at_same, He; simpl.
    eexists; split; [reflexivity|]; split; [reflexivity|].
    now apply has_class_status_shown.
Qed.

Lemma rejection_is_atomic_witness :
  isLoading sample_busy = true
  /\ exists s',
    menuItemClick 5 (1 # 3) sample_busy = (Normal tt, s')
    /\ isLoading s' = true
    /\ timers s' = timers sample_busy
    /\ listeners s' = listeners sample_busy
    /\ currentTab s' = currentTab sample_busy
    /\ statusCalls s' =
         (statusCalls sample_busy
            ++ [("API call already in progress - Please wait", "error")])%list
    /\ (forall i, getElementById "statusMessage" (document sample_busy) <> Some i ->
                  nth_error (document s') i = nth_error (document sample_busy) i)
    /\ (forall i, getElementById "statusMessage" (document sample_busy) = Some i ->
                  exists e',
                    nth_error (document s') i = Some e'
                    /\ textContent e' = "API call already in progress - Please wait"
                    /\ has_class "error" e' = true).
Proof.
  split; [vm_compute; reflexivity|].
  apply (rejection_is_atomic 5 (1 # 3) sample_busy); vm_compute; reflexivity.
Defined.

(** ** Tabs while a call is in flight *)

Lemma active_flags_show_status_error (message : string) (d : Document) :
  active_flags (show_status message "error" d) = active_flags d.
Proof.
  apply map_show_status; intros e; unfold has_class.
  destruct (contains_status_shown "active" message "error" e) as [a ->].
  simpl; now rewrite andb_true_r, andb_false_r, orb_false_r.
Qed.

(** C8. Tabs are frozen while a call is in flight.  With the busy flag set,
    the click listener of a tab button returns after one advisory call of the
    status function: the current tab and the active highlighting of every
    element are as before and [switchToTab] has not run.  More generally no
    event that happens while the flag is set, click or timer callback,
    changes the current tab: it is only written while the page is idle. *)
Theorem tab_click_while_loading
        (host_querySelector : string -> Document -> Completion (option nat))
        (object_prototype_get : string -> option string)
        (this : nat) (s : State) :
  isLoading s = true ->
  (exists s',
      tabButtonClick host_querySelector object_prototype_get this s = (Normal tt, s')
      /\ currentTab s' = currentTab s
      /\ active_flags (document s') = active_flags (document s)
      /\ isLoading s' = true
      /\ timers s' = timers s
      /\ statusCalls s' =
           (statusCalls s
              ++ [("Please wait for current operation to complete", "error")])%list)
  /\ (forall e s1,
         step host_querySelector object_prototype_get e s = Some s1 ->
         currentTab s1 = currentTab s).
Proof.
  intros Hbusy; split.
  - rewrite tabButtonClick_busy by assumption.
    eexists; split; [reflexivity|]; simpl.
    repeat split; auto using active_flags_show_status_error.
  - intros [target random|i random currentTime] s1; simpl.
    + destruct (target <? List.length (document s))%nat; [|discriminate].
      intros [= <-].
      now apply dispatch_busy.
    + destruct (nth_error (timers s) i) as [t|]; [|discriminate].
      intros [= <-]; now rewrite timeoutCallback_run.
Qed.

Lemma tab_click_while_loading_witness :
  isLoading sample_busy = true
  /\ (exists s',
         tabButtonClick strict_host bare_prototype 1 sample_busy = (Normal tt, s')
         /\ currentTab s' = currentTab sample_busy
         /\ active_flags (document s') = active_flags (document sample_busy)
         /\ isLoading s' = true
         /\ timers s' = timers sample_busy
         /\ statusCalls s' =
              (statusCalls sample_busy
                 ++ [("Please wait for current operation to complete", "error")])%list)
  /\ (forall e s1,
         step strict_host bare_prototype e sample_busy = Some s1 ->
         currentTab s1 = currentTab sample_busy).
Proof.
  split; [vm_compute; reflexivity|].
  apply (tab_click_while_loading strict_host bare_prototype 1 sample_busy).
  vm_compute; reflexivity.
Defined.

(** ** The status bar classes *)

(** C10. Status display.  After any call of [updateStatusMessage], with any
    message and type and whether or not adding the type throws, the status
    element is still the element found under the id [statusMessage], it
    shows the message, and it carries at most one of the classes [loading],
    [success] and [error]: its class list is the old one without these
    three, followed by at most the type.  When the page has no status
    element the call returns normally and leaves the globals, the timers,
    the listeners and the page as they were. *)
Theorem status_classes_exclusive (message type : string) (s : State) :
  let s' := snd (updateStatusMessage message type s) in
  (forall i e,
      getElementById "statusMessage" (document s) = Some i ->
      nth_error (document s) i = Some e ->
      exists e',
        getElementById "statusMessage" (document s') = Some i
        /\ nth_error (document s') i = Some e'
        /\ textContent e' = message
        /\ (styling_count (classList e') <= 1)%nat
        /\ (classList e' = classList_remove ["loading"; "success"; "error"] (classList e)
            \/ classList e' =
                 (classList_remove ["loading"; "success"; "error"] (classList e)
                    ++ [type])%list))
  /\ (getElementById "statusMessage" (document s) = None ->
      fst (updateStatusMessage message type s) = Normal tt
      /\ document s' = document s
      /\ currentTab s' = currentTab s
      /\ isLoading s' = isLoading s
      /\ timers s' = timers s
      /\ listeners s' = listeners s).
Proof.
  destruct (updateStatusMessage_run message type s) as [c [Hrun _]].
  cbv zeta; split.
  - intros i e Hid He; rewrite Hrun; simpl.
    exists (status_shown message type e).
    split; [now rewrite getElementById_show_status|].
    unfold show_status; rewrite Hid, nth_error_update_at_same, He; simpl.
    split; [reflexivity|].
    split.
    { unfold status_shown; cbv zeta; destruct (truthy type); [|reflexivity].
      destruct (classList_add type _); reflexivity. }
    split; [apply styling_count_status_shown|].
    unfold status_shown; cbv zeta; fold styling_classes.
    destruct (truthy type); [|now left].
    cbn [classList set_classList set_textContent].
    unfold classList_add.
    destruct (negb (truthy type)); [now left|].
    destruct (has_whitespace type); [now left|].
    destruct (contains type _); [now left | now right].
  - intros Hnone.
    unfold updateStatusMessage, bind, record_statusCall, get_document; simpl.
    rewrite Hnone; simpl; repeat split.
Qed.

Lemma status_classes_exclusive_witness :
  exists e',
    getElementById "statusMessage"
      (document (snd (updateStatusMessage "Done" "success" sample_busy))) = Some 6%nat
    /\ nth_error (document (snd (updateStatusMessage "Done" "success" sample_busy))) 6
       = Some e'
    /\ textContent e' = "Done"
    /\ (styling_count (classList e') <= 1)%nat
    /\ (classList e' = classList_remove ["loading"; "success"; "error"] ["status-message"; "loading"]
        \/ classList e' =
             (classList_remove ["loading"; "success"; "error"] ["status-message"; "loading"]
                ++ ["success"])%list).
Proof.
  apply (proj1 (status_classes_exclusive "Done" "success" sample_busy) 6%nat
               (mkElement (Some "statusMessage") ["status-message"; "loading"] None None
                          false EmptyString EmptyString
                          (loading_message (Some "Pizza"))));
    vm_compute; reflexivity.
Defined.

(** ** Delay and outcome *)

(** C5. Delay.  A menu click in the idle state sets the busy flag and
    schedules one callback for the clicked item; for a draw [random] of
    [Math.random] in [0,1) its delay is [random * 2000 + 1000], which lies
    between 1000 and 3000.  The delay is an affine image of the draw, so it
    is spread over that range as evenly as the draw is over [0,1): it falls
    in [a,b) exactly when the draw falls in the interval from
    [(a-1000)/2000] to [(b-1000)/2000]. *)
Theorem delay_in_range (this : nat) (random : Q) (s : State) :
  isLoading s = false ->
  (0 <= random)%Q -> (random < 1)%Q ->
  exists s' t,
    menuItemClick this random s = (Normal tt, s')
    /\ isLoading s' = true
    /\ timers s' = (timers s ++ [t])%list
    /\ timer_itemName t = itemName_of this s
    /\ timer_delay t = (random * 2000 + 1000)%Q
    /\ (1000 <= timer_delay t)%Q
    /\ (timer_delay t <= 3000)%Q
    /\ (forall a b : Q,
           (a <= timer_delay t /\ timer_delay t < b
            <-> (a - 1000) / 2000 <= random /\ random < (b - 1000) / 2000)%Q).
Proof.
  intros Hidle Hlo Hhi.
  rewrite menuItemClick_idle, simulateRestApiCall_run by assumption.
  eexists; eexists; split; [reflexivity|]; simpl.
  unfold delay_of.
  do 4 (split; [reflexivity|]).
  cbn [timer_delay].
  split; [lra|].
  split; [lra|].
  intros a b; unfold Qdiv; change (/ 2000)%Q with (1 # 2000)%Q.
  split; intros [H1 H2]; split; lra.
Qed.

Lemma delay_in_range_witness :
  isLoading (initial sample_page) = false
  /\ (0 <= 1 # 2)%Q /\ (1 # 2 < 1)%Q
  /\ exists s' t,
    menuItemClick 4 (1 # 2) (initial sample_page) = (Normal tt, s')
    /\ isLoading s' = true
    /\ timers s' = (timers (initial sample_page) ++ [t])%list
    /\ timer_itemName t = itemName_of 4 (initial sample_page)
    /\ timer_delay t = ((1 # 2) * 2000 + 1000)%Q
    /\ (1000 <= timer_delay t)%Q
    /\ (timer_delay t <= 3000)%Q
    /\ (forall a b : Q,
           (a <= timer_delay t /\ timer_delay t < b
            <-> (a - 1000) / 2000 <= 1 # 2 /\ 1 # 2 < (b - 1000) / 2000)%Q).
Proof.
  split; [vm_compute; reflexivity|].
  split; [discriminate|].
  split; [reflexivity|].
  apply (delay_in_range 4 (1 # 2) (initial sample_page));
    [vm_compute; reflexivity | discriminate | reflexivity].
Defined.

Lemma success_of_true (random : Q) : success_of random = true <-> (1 # 10 < random)%Q.
Proof.
  unfold success_of, Qgtb; rewrite negb_true_iff; split.
  - intros H; apply Qnot_le_lt; intros Hle.
    apply Qle_bool_iff in Hle; congruence.
  - intros H; destruct (Qle_bool random (1 # 10)) eqn:E; auto.
    apply Qle_bool_iff in E; lra.
Qed.

Lemma success_of_false (random : Q) : success_of random = false <-> (random <= 1 # 10)%Q.
Proof.
  unfold success_of, Qgtb; rewrite negb_false_iff; apply Qle_bool_iff.
Qed.

Lemma count_above (t m : nat) :
  List.length (filter (fun k => negb (k <=? t)%nat) (seq 0 m)) = (m - S t)%nat.
Proof.
  induction m as [|m IH]; auto.
  rewrite seq_S, filter_app, length_app, IH; simpl.
  destruct (Nat.leb_spec m t); simpl; lia.
Qed.

Lemma success_of_grid (n : positive) (k : nat) :
  success_of (Z.of_nat k # n) = negb (k <=? Pos.to_nat n / 10)%nat.
Proof.
  unfold success_of, Qgtb, Qle_bool; cbn [Qnum Qden]; f_equal.
  apply eq_true_iff_eq; rewrite Z.leb_le, Nat.leb_le.
  pose proof (Nat.div_mod_eq (Pos.to_nat n) 10).
  assert (Pos.to_nat n mod 10 < 10)%nat by (apply Nat.mod_upper_bound; lia).
  lia.
Qed.

(** C6. Outcome.  The callback reports success exactly when its draw exceeds
    1/10 and failure exactly when it does not; among the draws of [0,1) the
    successes are the interval from 1/10 to 1, of length 9/10, and among [n]
    equally spaced draws the share of successes is below 9/10 by at most
    [1/n].  Each run of the callback makes exactly one status call, the
    success report or the failure report of its item, and the two differ. *)
Theorem outcome_probability (itemName : option string) (random : Q) (currentTime : string)
        (s : State) :
  (success_of random = true <-> (1 # 10 < random)%Q)
  /\ (success_of random = false <-> (random <= 1 # 10)%Q)
  /\ ((0 <= random)%Q /\ (random < 1)%Q ->
      (success_of random = true <-> (1 # 10 < random)%Q /\ (random < 1)%Q))
  /\ (1 - (1 # 10) == 9 # 10)%Q
  /\ (forall n : positive,
         (9 * Pos.to_nat n - 10 <= 10 * grid_successes n)%nat
         /\ (10 * grid_successes n < 9 * Pos.to_nat n)%nat)
  /\ statusCalls (snd (timeoutCallback itemName random currentTime s)) =
       (statusCalls s ++ [outcome_call itemName (success_of random) currentTime])%list
  /\ outcome_call itemName true currentTime <> outcome_call itemName false currentTime.
Proof.
  split; [apply success_of_true|].
  split; [apply success_of_false|].
  split; [intros [_ Hhi]; rewrite success_of_true; tauto|].
  split; [reflexivity|].
  split.
  { intros n; unfold grid_successes.
    rewrite (filter_ext _ _ (success_of_grid n)), count_above.
    pose proof (Nat.div_mod_eq (Pos.to_nat n) 10).
    assert (Pos.to_nat n mod 10 < 10)%nat by (apply Nat.mod_upper_bound; lia).
    lia. }
  split; [now rewrite timeoutCallback_run|].
  unfold outcome_call; intros [= H _]; discriminate H.
Qed.

(** ** Rejection and failure *)

(** C7. Rejection is not failure.  A menu click while busy is reported by
    the status call of the busy advisory and leaves the operation in flight;
    a completed operation is reported by the outcome call of its item and
    ends it.  The advisory differs from every outcome report, failed or
    successful, already in its message (the two share only the styling class
    [error] of failures).  A failure is reported through the same function
    and the same template as a success, with the same item and time: the two
    differ in the mark, the word and the class that tell the outcome, and
    the states they leave agree on everything else. *)
Theorem rejection_distinct_from_failure (itemName : option string) (currentTime : string) :
  (forall this random s,
      isLoading s = true ->
      statusCalls (snd (menuItemClick this random s)) =
        (statusCalls s ++ [("API call already in progress - Please wait", "error")])%list
      /\ isLoading (snd (menuItemClick this random s)) = true)
  /\ (forall random s,
         statusCalls (snd (timeoutCallback itemName random currentTime s)) =
           (statusCalls s ++ [outcome_call itemName (success_of random) currentTime])%list
         /\ isLoading (snd (timeoutCallback itemName random currentTime s)) = false)
  /\ (forall success,
         "API call already in progress - Please wait"
         <> fst (outcome_call itemName success currentTime))
  /\ outcome_call itemName true currentTime =
       outcome_template "✓" "successful" "success" itemName currentTime
  /\ outcome_call itemName false currentTime =
       outcome_template "✗" "failed" "error" itemName currentTime
  /\ (forall r1 r2 s,
         let s1 := snd (timeoutCallback itemName r1 currentTime s) in
         let s2 := snd (timeoutCallback itemName r2 currentTime s) in
         fst (timeoutCallback itemName r1 currentTime s)
           = fst (timeoutCallback itemName r2 currentTime s)
         /\ currentTab s1 = currentTab s2
         /\ isLoading s1 = isLoading s2
         /\ timers s1 = timers s2
         /\ listeners s1 = listeners s2
         /\ List.length (statusCalls s1) = List.length (statusCalls s2)
         /\ menu_enabled (document s1)
         /\ menu_enabled (document s2)).
Proof.
  split.
  { intros this random s Hbusy; now rewrite menuItemClick_busy. }
  split.
  { intros random s; now rewrite timeoutCallback_run. }
  split.
  { intros [|]; unfold outcome_call; simpl; discriminate. }
  split; [reflexivity|].
  split; [reflexivity|].
  intros r1 r2 s; cbv zeta; rewrite !timeoutCallback_run; simpl.
  do 5 (split; [reflexivity|]).
  split; [now rewrite !length_app|].
  split; apply menu_shown_enabled.
Qed.

(** ** Item names *)

Lemma has_class_item_shown (c : string) (b : bool) (e : Element) :
  has_class c (item_shown b e) = has_class c e.
Proof. destruct b; reflexivity. Qed.

Lemma getElementById_menu_shown (x : string) (b : bool) (d : Document) :
  getElementById x (menu_shown b d) = getElementById x d.
Proof.
  apply getElementById_ext; unfold menu_shown; rewrite map_map.
  apply map_ext; intros e.
  destruct (has_class "menu-item" e); [destruct b|]; reflexivity.
Qed.

(** What the status element shows once the callback of a call has run. *)
Lemma status_element_after_callback (load message type : string) (d : Document)
      (i : nat) :
  truthy type = true ->
  has_whitespace type = false ->
  getElementById "statusMessage" d = Some i ->
  exists e',
    nth_error
      (menu_shown false
         (show_status message type (menu_shown true (show_status load "loading" d)))) i
    = Some e'
    /\ textContent e' = message
    /\ has_class type e' = true.
Proof.
  intros Ht Hws Hid.
  set (d1 := menu_shown true (show_status load "loading" d)).
  assert (Hid1 : getElementById "statusMessage" d1 = Some i).
  { unfold d1; now rewrite getElementById_menu_shown, getElementById_show_status. }
  destruct (getElementById_sound _ _ _ Hid1) as [e1 [He1 _]].
  unfold show_status at 1; rewrite Hid1.
  unfold menu_shown at 1; rewrite nth_error_map, nth_error_update_at_same, He1.
  cbn [option_map].
  eexists; split; [reflexivity|].
  assert (Htext : textContent (status_shown message type e1) = message).
  { unfold status_shown; cbv zeta; rewrite Ht.
    destruct (classList_add type _); reflexivity. }
  pose proof (has_class_status_shown message type e1 Ht Hws) as Hclass.
  destruct (has_class "menu-item" (status_shown message type e1)).
  - split; [destruct (status_shown message type e1); exact Htext|].
    rewrite has_class_item_shown; exact Hclass.
  - split; [exact Htext | exact Hclass].
Qed.

(** C9. Item names are not validated.  Whatever the [data-item] attribute of
    the clicked element is, a string, the empty string or absent ([null]),
    a menu click in the idle state is accepted without any check: it sets the
    busy flag and schedules the callback for that name; the callback then
    runs, clears the flag and makes the success or the failure status call,
    whose message quotes the name itself, the attribute value when there is
    one and the four letters [null] when there is none; and when the page
    has a status element, that element then shows this message and carries
    the class of the outcome. *)
Theorem item_name_not_validated
        (host_querySelector : string -> Document -> Completion (option nat))
        (object_prototype_get : string -> option string)
        (itemName : option string) (this : nat) (item : Element)
        (r1 r2 : Q) (currentTime : string) (s : State) :
  isLoading s = false ->
  timers s = [] ->
  nth_error (document s) this = Some item ->
  data_item item = itemName ->
  let name := match itemName with
              | Some n => n
              | None => "null"
              end in
  let outcome :=
    if success_of r2
    then (("✓ API call successful for " ++ dquote ++ name ++ dquote
             ++ " at " ++ currentTime)%string, "success")
    else (("✗ API call failed for " ++ dquote ++ name ++ dquote
             ++ " at " ++ currentTime)%string, "error") in
  exists s1 s2,
    menuItemClick this r1 s = (Normal tt, s1)
    /\ isLoading s1 = true
    /\ timers s1 = [mkTimer itemName (delay_of r1)]
    /\ step host_querySelector object_prototype_get (TimerFired 0 r2 currentTime) s1
       = Some s2
    /\ isLoading s2 = false
    /\ timers s2 = []
    /\ statusCalls s2 =
         (statusCalls s
            ++ [(("Simulating REST API call for " ++ dquote ++ name ++ dquote
                    ++ "...")%string, "loading");
                outcome])%list
    /\ (forall i,
           getElementById "statusMessage" (document s) = Some i ->
           exists e',
             nth_error (document s2) i = Some e'
             /\ textContent e' = fst outcome
             /\ has_class (snd outcome) e' = true).
Proof.
  intros Hidle Htimers Hitem Hname name outcome.
  assert (Hprint : toString itemName = name) by (now destruct itemName).
  rewrite menuItemClick_idle, simulateRestApiCall_run by assumption.
  unfold itemName_of; rewrite Hitem, Hname, Htimers.
  eexists; eexists; split; [reflexivity|]; simpl.
  do 2 (split; [reflexivity|]).
  rewrite timeoutCallback_run; simpl.
  split; [reflexivity|]; simpl.
  do 2 (split; [reflexivity|]).
  assert (Hout : outcome_call itemName (success_of r2) currentTime = outcome).
  { unfold outcome_call, outcome; now rewrite Hprint. }
  rewrite Hout; unfold loading_message; rewrite Hprint.
  split; [rewrite <- app_assoc; reflexivity|].
  intros i Hid.
  apply status_element_after_callback; auto;
    unfold outcome; destruct (success_of r2); reflexivity.
Qed.

Lemma item_name_not_validated_witness :
  isLoading (initial nameless_page) = false
  /\ timers (initial nameless_page) = []
  /\ nth_error (document (initial nameless_page)) 0
     = Some (sample_element None ["menu-item"] None None)
  /\ data_item (sample_element None ["menu-item"] None None) = None
  /\ exists s1 s2,
    menuItemClick 0 (1 # 4) (initial nameless_page) = (Normal tt, s1)
    /\ isLoading s1 = true
    /\ timers s1 = [mkTimer None (delay_of (1 # 4))]
    /\ step strict_host bare_prototype (TimerFired 0 0 "10:15:00") s1 = Some s2
    /\ isLoading s2 = false
    /\ timers s2 = []
    /\ statusCalls s2 =
         (statusCalls (initial nameless_page)
            ++ [(("Simulating REST API call for " ++ dquote ++ "null" ++ dquote
                    ++ "...")%string, "loading");
                (("✗ API call failed for " ++ dquote ++ "null" ++ dquote
                    ++ " at 10:15:00")%string, "error")])%list
    /\ (forall i,
           getElementById "statusMessage" (document (initial nameless_page)) = Some i ->
           exists e',
             nth_error (document s2) i = Some e'
             /\ textContent e'
                = ("✗ API call failed for " ++ dquote ++ "null" ++ dquote
                     ++ " at 10:15:00")%string
             /\ has_class "error" e' = true).
Proof.
  split; [vm_compute; reflexivity|].
  split; [vm_compute; reflexivity|].
  split; [vm_compute; reflexivity|].
  split; [reflexivity|].
  apply (item_name_not_validated strict_host bare_prototype None 0
           (sample_element None ["menu-item"] None None) (1 # 4) 0 "10:15:00"
           (initial nameless_page));
    vm_compute; reflexivity.
Defined.

(** The same cycle for an item that has a name: the messages quote it. *)
Example named_item_is_quoted :
  exists s1 s2,
    menuItemClick 4 (1 # 4) (initial sample_page) = (Normal tt, s1)
    /\ step strict_host bare_prototype (TimerFired 0 (1 # 2) "10:15:00") s1 = Some s2
    /\ statusCalls s2 =
         [ ("Application initialized - Ready to use", EmptyString);
           (("Simulating REST API call for " ++ dquote ++ "Pizza" ++ dquote
               ++ "...")%string, "loading");
           (("✓ API call successful for " ++ dquote ++ "Pizza" ++ dquote
               ++ " at 10:15:00")%string, "success") ]
    /\ option_map textContent (nth_error (document s2) 6)
       = Some ("✓ API call successful for " ++ dquote ++ "Pizza" ++ dquote
                 ++ " at 10:15:00")%string
    /\ option_map classList (nth_error (document s2) 6)
       = Some ["status-message"; "success"].
Proof.
  eexists; eexists; split; [vm_compute; reflexivity|].
  split; [vm_compute; reflexivity|].
  repeat split; vm_compute; reflexivity.
Qed.

(** The cycle of the item without a name, read off the page: the status
    element ends with the failure message, which quotes [null]. *)
Example nameless_item_on_the_page :
  option_map
    (fun s => option_map (fun e => (textContent e, classList e))
                         (nth_error (document s) 1))
    (run strict_host bare_prototype [Click 0 (1 # 4); TimerFired 0 0 "10:15:00"]
         (initial nameless_page))
  = Some (Some (("✗ API call failed for " ++ dquote ++ "null" ++ dquote
                   ++ " at 10:15:00")%string,
                ["error"])).
Proof. vm_compute; reflexivity. Qed.

(** ** Fixed parameters *)

(** C4, as stated, fails: the script has no delay and no success probability
    to set.  On a page with the item X, a click whose draw is 0, the least
    value of [Math.random], schedules the callback 1000 ms ahead, not 0; and
    that callback reports a failure of X when its own draw is 0 and a success
    when it is 1/2, so neither outcome can be fixed in advance. *)
Lemma injected_parameters_counterexample :
  exists s1,
    step strict_host bare_prototype (Click 0 0) (initial x_page) = Some s1
    /\ (exists t,
           timers s1 = [t]
           /\ timer_itemName t = Some "X"
           /\ (timer_delay t == 1000)%Q
           /\ ~ (timer_delay t == 0)%Q)
    /\ (exists s2,
           step strict_host bare_prototype (TimerFired 0 0 "12:00:00") s1 = Some s2
           /\ last (statusCalls s2) (EmptyString, EmptyString)
              = (("✗ API call failed for " ++ dquote ++ "X" ++ dquote
                    ++ " at 12:00:00")%string, "error"))
    /\ (exists s2,
           step strict_host bare_prototype (TimerFired 0 (1 # 2) "12:00:00") s1 = Some s2
           /\ last (statusCalls s2) (EmptyString, EmptyString)
              = (("✓ API call successful for " ++ dquote ++ "X" ++ dquote
                    ++ " at 12:00:00")%string, "success")).
Proof.
  eexists; split; [vm_compute; reflexivity|].
  split.
  { eexists; split; [reflexivity|]; split; [reflexivity|]; split.
    - reflexivity.
    - discriminate. }
  split; eexists; split; vm_compute; reflexivity.
Qed.

(** C4, amended.  The delay and the outcome are fixed functions of the two
    draws of [Math.random].  A menu click in the idle state schedules the
    callback of the clicked item [r1 * 2000 + 1000] ms ahead, which is at
    least 1000 for a draw [r1 >= 0]; until that callback has run every menu
    click is rejected with the busy advisory; and the callback reports a
    success of the item when its draw [r2] exceeds 1/10 and a failure when
    it does not. *)
Theorem outcome_follows_draw
        (host_querySelector : string -> Document -> Completion (option nat))
        (object_prototype_get : string -> option string)
        (this : nat) (item : Element) (r1 r2 : Q) (currentTime : string) (s : State) :
  isLoading s = false ->
  timers s = [] ->
  nth_error (document s) this = Some item ->
  (0 <= r1)%Q ->
  exists s1,
    menuItemClick this r1 s = (Normal tt, s1)
    /\ isLoading s1 = true
    /\ timers s1 = [mkTimer (data_item item) (r1 * 2000 + 1000)]
    /\ (1000 <= r1 * 2000 + 1000)%Q
    /\ (forall this' r',
           isLoading (snd (menuItemClick this' r' s1)) = true
           /\ timers (snd (menuItemClick this' r' s1)) = timers s1
           /\ statusCalls (snd (menuItemClick this' r' s1)) =
                (statusCalls s1
                   ++ [("API call already in progress - Please wait", "error")])%list)
    /\ exists s2,
        step host_querySelector object_prototype_get (TimerFired 0 r2 currentTime) s1
          = Some s2
        /\ isLoading s2 = false
        /\ timers s2 = []
        /\ ((1 # 10 < r2)%Q ->
            statusCalls s2 =
              (statusCalls s1
                 ++ [(("✓ API call successful for " ++ dquote ++ toString (data_item item)
                         ++ dquote ++ " at " ++ currentTime)%string, "success")])%list)
        /\ ((r2 <= 1 # 10)%Q ->
            statusCalls s2 =
              (statusCalls s1
                 ++ [(("✗ API call failed for " ++ dquote ++ toString (data_item item)
                         ++ dquote ++ " at " ++ currentTime)%string, "error")])%list).
Proof.
  intros Hidle Htimers Hitem Hr1.
  rewrite menuItemClick_idle, simulateRestApiCall_run by assumption.
  unfold itemName_of; rewrite Hitem, Htimers.
  eexists; split; [reflexivity|]; simpl.
  do 2 (split; [reflexivity|]).
  split; [lra|].
  split.
  { intros this' r'; now rewrite menuItemClick_busy. }
  rewrite timeoutCallback_run; simpl.
  eexists; split; [reflexivity|]; simpl.
  do 2 (split; [reflexivity|]).
  split; intros Hr2.
  - apply success_of_true in Hr2; rewrite Hr2; reflexivity.
  - apply success_of_false in Hr2; rewrite Hr2; reflexivity.
Qed.

Lemma outcome_follows_draw_witness :
  isLoading (initial x_page) = false
  /\ timers (initial x_page) = []
  /\ nth_error (document (initial x_page)) 0
     = Some (sample_element None ["menu-item"] None (Some "X"))
  /\ (0 <= 0)%Q
  /\ exists s1,
    menuItemClick 0 0 (initial x_page) = (Normal tt, s1)
    /\ isLoading s1 = true
    /\ timers s1 = [mkTimer (Some "X") (0 * 2000 + 1000)]
    /\ (1000 <= 0 * 2000 + 1000)%Q
    /\ (forall this' r',
           isLoading (snd (menuItemClick this' r' s1)) = true
           /\ timers (snd (menuItemClick this' r' s1)) = timers s1
           /\ statusCalls (snd (menuItemClick this' r' s1)) =
                (statusCalls s1
                   ++ [("API call already in progress - Please wait", "error")])%list)
    /\ exists s2,
        step strict_host bare_prototype (TimerFired 0 (1 # 2) "12:00:00") s1 = Some s2
        /\ isLoading s2 = false
        /\ timers s2 = []
        /\ ((1 # 10 < 1 # 2)%Q ->
            statusCalls s2 =
              (statusCalls s1
                 ++ [(("✓ API call successful for " ++ dquote ++ toString (Some "X")
                         ++ dquote ++ " at " ++ "12:00:00")%string, "success")])%list)
        /\ ((1 # 2 <= 1 # 10)%Q ->
            statusCalls s2 =
              (statusCalls s1
                 ++ [(("✗ API call failed for " ++ dquote ++ toString (Some "X")
                         ++ dquote ++ " at " ++ "12:00:00")%string, "error")])%list).
Proof.
  split; [vm_compute; reflexivity|].
  split; [vm_compute; reflexivity|].
  split; [vm_compute; reflexivity|].
  split; [discriminate|].
  apply (outcome_follows_draw strict_host bare_prototype 0
           (sample_element None ["menu-item"] None (Some "X")) 0 (1 # 2) "12:00:00"
           (initial x_page));
    [vm_compute; reflexivity | vm_compute; reflexivity | vm_compute; reflexivity
    | discriminate].
Defined.

(** * Further properties of the script *)

(** ** Status bar: composition and errors *)

Lemma has_whitespace_truthy (s : string) : has_whitespace s = true -> truthy s = true.
Proof. destruct s; simpl; [discriminate | reflexivity]. Qed.

Lemma status_shown_eq (message type : string) (e : Element) :
  status_shown message type e
  = set_classList (status_classes type (classList e)) (set_textContent message e).
Proof.
  unfold status_shown, status_classes, classList_add; cbv zeta.
  cbn [classList set_classList set_textContent].
  destruct (truthy type); cbn [negb andb]; [|reflexivity].
  destruct (has_whitespace type); cbn [negb]; reflexivity.
Qed.

Lemma classList_remove_app (toks l1 l2 : list string) :
  classList_remove toks (l1 ++ l2)%list
  = (classList_remove toks l1 ++ classList_remove toks l2)%list.
Proof. unfold classList_remove; apply filter_app. Qed.

Lemma classList_remove_idem (toks l : list string) :
  classList_remove toks (classList_remove toks l) = classList_remove toks l.
Proof.
  unfold classList_remove; induction l as [|x l IH]; simpl; auto.
  destruct (contains x toks) eqn:Hx; simpl; auto.
  now rewrite Hx, IH.
Qed.

Lemma classList_remove_status_classes (type : string) (l : list string) :
  In type [EmptyString; "loading"; "success"; "error"] ->
  classList_remove styling_classes (status_classes type l)
  = classList_remove styling_classes l.
Proof.
  intros Hin; unfold status_classes; cbv zeta.
  destruct (truthy type && negb (has_whitespace type)) eqn:Hok;
    [|apply classList_remove_idem].
  assert (Hsty : contains type styling_classes = true).
  { simpl in Hin; destruct Hin as [<-|[<-|[<-|[<-|[]]]]]; try reflexivity.
    discriminate Hok. }
  rewrite contains_classList_remove, Hsty, andb_false_r.
  rewrite classList_remove_app, classList_remove_idem.
  unfold classList_remove at 2; cbn [filter]; rewrite Hsty; cbn [negb].
  apply app_nil_r.
Qed.

Lemma status_shown_last_wins (m1 t1 m2 t2 : string) (e : Element) :
  In t1 [EmptyString; "loading"; "success"; "error"] ->
  status_shown m2 t2 (status_shown m1 t1 e) = status_shown m2 t2 e.
Proof.
  intros Hin; rewrite !status_shown_eq.
  cbn [classList set_classList set_textContent].
  unfold status_classes at 1 3; cbv zeta.
  rewrite (classList_remove_status_classes t1 (classList e) Hin).
  reflexivity.
Qed.

Lemma show_status_last_wins (m1 t1 m2 t2 : string) (d : Document) :
  In t1 [EmptyString; "loading"; "success"; "error"] ->
  show_status m2 t2 (show_status m1 t1 d) = show_status m2 t2 d.
Proof.
  intros Hin; unfold show_status at 1.
  rewrite getElementById_show_status; unfold show_status.
  destruct (getElementById "statusMessage" d) as [i|] eqn:Hid; [|reflexivity].
  destruct (getElementById_sound _ _ _ Hid) as [e [He _]].
  rewrite update_at_update_at.
  apply update_at_ext with (e := e); auto using status_shown_last_wins.
Qed.

(** The completion and the state of a call, in closed form. *)
Lemma updateStatusMessage_exact (message type : string) (s : State) :
  updateStatusMessage message type s =
    (match getElementById "statusMessage" (document s) with
     | Some _ => if has_whitespace type then Throw else Normal tt
     | None => Normal tt
     end,
     mkState (currentTab s) (isLoading s) (timers s) (listeners s)
             (show_status message type (document s))
             (statusCalls s ++ [(message, type)])).
Proof.
  destruct (updateStatusMessage_run message type s) as [c [Hrun Hc]].
  rewrite Hrun; f_equal.
  destruct (has_whitespace type) eqn:Hws.
  2:{ rewrite Hc by reflexivity; now destruct (getElementById _ _). }
  clear Hc; revert Hrun.
  unfold updateStatusMessage, bind, record_statusCall, get_document; simpl.
  destruct (getElementById "statusMessage" (document s)) as [i|] eqn:Hid.
  2:{ now intros [= <- _]. }
  destruct (getElementById_sound _ _ _ Hid) as [e [He _]].
  unfold write, bind, get_document, set_document; simpl.
  rewrite (has_whitespace_truthy _ Hws).
  unfold classList_add_at, bind, get_document, set_document; simpl.
  rewrite update_at_update_at, nth_error_update_at_same, He; simpl.
  unfold classList_add; rewrite (has_whitespace_truthy _ Hws), Hws; simpl.
  now intros [= <- _].
Qed.

(** X1. The status bar has no memory of the four types the script uses.
    When a call with type [''], [loading], [success] or [error] is followed
    by a second call, the page, the completion and the globals are those of
    the second call alone. *)
Theorem status_last_call_wins (m1 t1 m2 t2 : string) (s : State) :
  In t1 [EmptyString; "loading"; "success"; "error"] ->
  let s1 := snd (updateStatusMessage m1 t1 s) in
  fst (updateStatusMessage m2 t2 s1) = fst (updateStatusMessage m2 t2 s)
  /\ document (snd (updateStatusMessage m2 t2 s1))
     = document (snd (updateStatusMessage m2 t2 s))
  /\ globals (snd (updateStatusMessage m2 t2 s1)) = globals s.
Proof.
  intros Hin; cbv zeta; rewrite !updateStatusMessage_exact; simpl.
  rewrite getElementById_show_status, show_status_last_wins by assumption.
  repeat split.
Qed.

Lemma status_last_call_wins_witness :
  In "loading" [EmptyString; "loading"; "success"; "error"]
  /\ fst (updateStatusMessage "Done" "success"
            (snd (updateStatusMessage "Wait" "loading" (initial sample_page))))
     = fst (updateStatusMessage "Done" "success" (initial sample_page))
  /\ document (snd (updateStatusMessage "Done" "success"
                      (snd (updateStatusMessage "Wait" "loading" (initial sample_page)))))
     = document (snd (updateStatusMessage "Done" "success" (initial sample_page)))
  /\ globals (snd (updateStatusMessage "Done" "success"
                     (snd (updateStatusMessage "Wait" "loading" (initial sample_page)))))
     = globals (initial sample_page).
Proof.
  split; [right; left; reflexivity|].
  apply (status_last_call_wins "Wait" "loading" "Done" "success" (initial sample_page)).
  right; left; reflexivity.
Defined.

(** X2. When [updateStatusMessage] throws.  The call throws exactly when the
    page has a status element and the type holds ASCII whitespace (the
    token is refused by [classList.add]); it never throws otherwise, also
    not when the element is missing.  A call that throws is not undone: the
    element already shows the new message and has lost its three styling
    classes. *)
Theorem status_throws_iff (message type : string) (s : State) :
  (fst (updateStatusMessage message type s) = Throw
   <-> getElementById "statusMessage" (document s) <> None
       /\ has_whitespace type = true)
  /\ (fst (updateStatusMessage message type s) = Throw ->
      forall i e,
        getElementById "statusMessage" (document s) = Some i ->
        nth_error (document s) i = Some e ->
        nth_error (document (snd (updateStatusMessage message type s))) i
        = Some (set_classList
                  (classList_remove ["loading"; "success"; "error"] (classList e))
                  (set_textContent message e))).
Proof.
  rewrite updateStatusMessage_exact; simpl; split.
  - destruct (getElementById "statusMessage" (document s)) as [i|].
    + destruct (has_whitespace type); split.
      * intros _; split; [discriminate | reflexivity].
      * reflexivity.
      * discriminate.
      * intros [_ H]; discriminate H.
    + split; [discriminate | intros [H _]; now contradiction H].
  - intros Hthrow i e Hid He; rewrite Hid in Hthrow.
    destruct (has_whitespace type) eqn:Hws; [|discriminate].
    unfold show_status; rewrite Hid, nth_error_update_at_same, He; simpl.
    rewrite status_shown_eq; unfold status_classes; cbv zeta.
    now rewrite Hws, andb_false_r.
Qed.

(** X3. What the status bar keeps.  A call never removes a class other than
    [loading], [success] and [error] from the status element, whether the
    call returns or throws: such a class is on the element after the call
    when it was there before, and a class that is there after the call and
    is not the type of the call was there before.  So a type outside these
    three, once added, stays for good. *)
Theorem status_keeps_other_classes (message type c : string) (s : State)
        (i : nat) :
  contains c ["loading"; "success"; "error"] = false ->
  getElementById "statusMessage" (document s) = Some i ->
  exists e e',
    nth_error (document s) i = Some e
    /\ nth_error (document (snd (updateStatusMessage message type s))) i = Some e'
    /\ (has_class c e = true -> has_class c e' = true)
    /\ (has_class c e' = true -> has_class c e = true \/ c = type).
Proof.
  intros Hc Hid.
  destruct (getElementById_sound _ _ _ Hid) as [e [He _]].
  rewrite updateStatusMessage_exact; simpl; unfold show_status.
  rewrite Hid, nth_error_update_at_same, He; simpl.
  exists e; eexists; split; [reflexivity|]; split; [reflexivity|].
  unfold has_class.
  destruct (contains_status_shown c message type e) as [a ->].
  unfold styling_classes; rewrite Hc, andb_true_r; split.
  - now intros ->.
  - intros H; apply orb_true_iff in H; destruct H as [H|H]; [now left|].
    apply andb_true_iff in H; destruct H as [_ H].
    right; now apply String.eqb_eq.
Qed.

Lemma status_keeps_other_classes_witness :
  contains "status-message" ["loading"; "success"; "error"] = false
  /\ getElementById "statusMessage" (document sample_busy) = Some 6%nat
  /\ exists e e',
    nth_error (document sample_busy) 6 = Some e
    /\ nth_error (document (snd (updateStatusMessage "Done" "success" sample_busy))) 6
       = Some e'
    /\ (has_class "status-message" e = true -> has_class "status-message" e' = true)
    /\ (has_class "status-message" e' = true ->
        has_class "status-message" e = true \/ "status-message" = "success").
Proof.
  split; [reflexivity|].
  split; [vm_compute; reflexivity|].
  apply (status_keeps_other_classes "Done" "success" "status-message" sample_busy 6);
    vm_compute; reflexivity.
Defined.

(** A type outside the three, here [info], stays through later calls. *)
Example custom_type_stays :
  option_map classList
    (nth_error
       (document
          (snd (updateStatusMessage "Done" "success"
                  (snd (updateStatusMessage "Note" "info" (initial sample_page))))))
       6)
  = Some ["status-message"; "info"; "success"].
Proof. vm_compute; reflexivity. Qed.

(** ** Menu items: frame and composition *)

Lemma item_shown_item_shown (b1 b2 : bool) (e : Element) :
  item_shown b2 (item_shown b1 e) = item_shown b2 e.
Proof. destruct b1, b2; reflexivity. Qed.

Lemma menu_shown_menu_shown (b1 b2 : bool) (d : Document) :
  menu_shown b2 (menu_shown b1 d) = menu_shown b2 d.
Proof.
  unfold menu_shown; rewrite map_map; apply map_ext; intros e.
  destruct (has_class "menu-item" e) eqn:He.
  - now rewrite has_class_item_shown, He, item_shown_item_shown.
  - now rewrite He.
Qed.

(** X4. [disableMenuItems] only reaches menu items, and only three of their
    properties.  The call returns normally and leaves the globals alone; an
    element without the class [menu-item] is exactly as before; an element
    with it keeps its id, classes, attributes and text and gets the
    [disabled] flag asked for, with opacity 0.6 and cursor not-allowed when
    disabling and opacity 1 and cursor pointer when enabling. *)
Theorem disableMenuItems_frame (b : bool) (s : State) (i : nat) (e : Element) :
  nth_error (document s) i = Some e ->
  fst (disableMenuItems b s) = Normal tt
  /\ globals (snd (disableMenuItems b s)) = globals s
  /\ statusCalls (snd (disableMenuItems b s)) = statusCalls s
  /\ List.length (document (snd (disableMenuItems b s))) = List.length (document s)
  /\ exists e',
      nth_error (document (snd (disableMenuItems b s))) i = Some e'
      /\ el_id e' = el_id e
      /\ classList e' = classList e
      /\ data_tab e' = data_tab e
      /\ data_item e' = data_item e
      /\ textContent e' = textContent e
      /\ (has_class "menu-item" e = false -> e' = e)
      /\ (has_class "menu-item" e = true ->
          disabled e' = b
          /\ style_opacity e' = (if b then "0.6" else "1")
          /\ style_cursor e' = (if b then "not-allowed" else "pointer")).
Proof.
  intros He; rewrite disableMenuItems_run; simpl.
  do 3 (split; [reflexivity|]).
  split; [apply length_map|].
  unfold menu_shown; rewrite nth_error_map, He; simpl.
  eexists; split; [reflexivity|].
  destruct (has_class "menu-item" e); destruct b; simpl;
    repeat split; auto; discriminate.
Qed.

Lemma disableMenuItems_frame_witness :
  nth_error (document (initial sample_page)) 4
  = Some (sample_element None ["menu-item"] None (Some "Pizza"))
  /\ fst (disableMenuItems true (initial sample_page)) = Normal tt
  /\ globals (snd (disableMenuItems true (initial sample_page)))
     = globals (initial sample_page)
  /\ statusCalls (snd (disableMenuItems true (initial sample_page)))
     = statusCalls (initial sample_page)
  /\ List.length (document (snd (disableMenuItems true (initial sample_page))))
     = List.length (document (initial sample_page))
  /\ exists e',
      nth_error (document (snd (disableMenuItems true (initial sample_page)))) 4 = Some e'
      /\ el_id e' = el_id (sample_element None ["menu-item"] None (Some "Pizza"))
      /\ classList e' = classList (sample_element None ["menu-item"] None (Some "Pizza"))
      /\ data_tab e' = data_tab (sample_element None ["menu-item"] None (Some "Pizza"))
      /\ data_item e' = data_item (sample_element None ["menu-item"] None (Some "Pizza"))
      /\ textContent e'
         = textContent (sample_element None ["menu-item"] None (Some "Pizza"))
      /\ (has_class "menu-item" (sample_element None ["menu-item"] None (Some "Pizza"))
          = false ->
          e' = sample_element None ["menu-item"] None (Some "Pizza"))
      /\ (has_class "menu-item" (sample_element None ["menu-item"] None (Some "Pizza"))
          = true ->
          disabled e' = true
          /\ style_opacity e' = (if true then "0.6" else "1")
          /\ style_cursor e' = (if true then "not-allowed" else "pointer")).
Proof.
  split; [vm_compute; reflexivity|].
  apply (disableMenuItems_frame true (initial sample_page) 4).
  vm_compute; reflexivity.
Defined.

(** X5. The last [disableMenuItems] wins.  Two calls in a row leave the
    state that the second call alone leaves.  In particular enabling after
    disabling does not bring back the inline opacity and cursor the page
    started with: it sets 1 and pointer whatever they were. *)
Theorem disableMenuItems_last_wins (b1 b2 : bool) (s : State) :
  disableMenuItems b2 (snd (disableMenuItems b1 s)) = disableMenuItems b2 s
  /\ forall e,
      In e (document (snd (disableMenuItems false (snd (disableMenuItems true s))))) ->
      has_class "menu-item" e = true ->
      disabled e = false /\ style_opacity e = "1" /\ style_cursor e = "pointer".
Proof.
  rewrite !disableMenuItems_run; simpl; split.
  - now rewrite menu_shown_menu_shown.
  - rewrite menu_shown_menu_shown; apply menu_shown_enabled.
Qed.

(** ** A whole simulated call *)

Lemma update_at_map (i : nat) (f g : Element -> Element) (d : Document) :
  (forall e, f (g e) = g (f e)) ->
  update_at i f (map g d) = map g (update_at i f d).
Proof.
  intros Hfg; revert i; induction d as [|e d IH]; intros [|i]; simpl; auto.
  - now rewrite Hfg.
  - now rewrite IH.
Qed.

(** A status call does not change the membership of a class that is neither
    its type nor a styling class. *)
Lemma has_class_status_shown_other (c message type : string) (e : Element) :
  String.eqb c type = false ->
  contains c styling_classes = false ->
  has_class c (status_shown message type e) = has_class c e.
Proof.
  intros Hct Hc; unfold has_class.
  destruct (contains_status_shown c message type e) as [a ->].
  now rewrite Hct, Hc, andb_true_r, andb_false_r, orb_false_r.
Qed.

Lemma status_shown_item_shown (message type : string) (b : bool) (e : Element) :
  status_shown message type (item_shown b e) = item_shown b (status_shown message type e).
Proof. rewrite !status_shown_eq; destruct b; reflexivity. Qed.

Lemma show_status_menu_shown (message type : string) (b : bool) (d : Document) :
  String.eqb "menu-item" type = false ->
  show_status message type (menu_shown b d) = menu_shown b (show_status message type d).
Proof.
  intros Ht; unfold show_status; rewrite getElementById_menu_shown.
  destruct (getElementById "statusMessage" d) as [i|]; [|reflexivity].
  unfold menu_shown; apply update_at_map; intros e.
  rewrite has_class_status_shown_other by (assumption || reflexivity).
  destruct (has_class "menu-item" e); [apply status_shown_item_shown | reflexivity].
Qed.

Lemma snd_outcome_call (itemName : option string) (success : bool) (currentTime : string) :
  snd (outcome_call itemName success currentTime) = "success"
  \/ snd (outcome_call itemName success currentTime) = "error".
Proof. destruct success; [left | right]; reflexivity. Qed.

(** The page after an accepted click and its callback. *)
Lemma cycle_document (load : string) (call : string * string) (d : Document) :
  snd call = "success" \/ snd call = "error" ->
  menu_shown false
    (show_status (fst call) (snd call) (menu_shown true (show_status load "loading" d)))
  = menu_shown false (show_status (fst call) (snd call) d).
Proof.
  intros Hcall.
  rewrite show_status_menu_shown by (destruct Hcall as [-> | ->]; reflexivity).
  rewrite menu_shown_menu_shown, show_status_last_wins; [reflexivity|].
  right; left; reflexivity.
Qed.

Lemma data_item_status_shown (message type : string) (e : Element) :
  data_item (status_shown message type e) = data_item e.
Proof. now rewrite status_shown_eq. Qed.

Lemma itemName_of_cycle (this : nat) (call : string * string) (s s' : State) :
  document s' = menu_shown false (show_status (fst call) (snd call) (document s)) ->
  itemName_of this s' = itemName_of this s.
Proof.
  intros Hd; unfold itemName_of; rewrite Hd.
  assert (Hmap : map data_item
                   (menu_shown false (show_status (fst call) (snd call) (document s)))
                 = map data_item (document s)).
  { unfold menu_shown; rewrite map_map.
    rewrite <- (map_show_status data_item (fst call) (snd call) (document s))
      by apply data_item_status_shown.
    apply map_ext; intros e; destruct (has_class "menu-item" e); reflexivity. }
  assert (Hnth : forall d1 d2 : Document,
             map data_item d1 = map data_item d2 ->
             match nth_error d1 this with Some e => data_item e | None => None end
             = match nth_error d2 this with Some e => data_item e | None => None end).
  { intros d1 d2 H12.
    assert (H := f_equal (fun l => nth_error l this) H12); simpl in H.
    rewrite !nth_error_map in H.
    destruct (nth_error d1 this), (nth_error d2 this); simpl in H; congruence. }
  now apply Hnth.
Qed.

Section Cycle.

Variable host_querySelector : string -> Document -> Completion (option nat).
Variable object_prototype_get : string -> option string.

Lemma cycle_closed_form (this : nat) (r1 r2 : Q) (currentTime : string) (s : State) :
  isLoading s = false ->
  timers s = [] ->
  let call := outcome_call (itemName_of this s) (success_of r2) currentTime in
  step host_querySelector object_prototype_get (TimerFired 0 r2 currentTime)
       (snd (menuItemClick this r1 s))
  = Some (mkState (currentTab s) false [] (listeners s)
                  (menu_shown false (show_status (fst call) (snd call) (document s)))
                  (statusCalls s
                     ++ [(loading_message (itemName_of this s), "loading"); call])).
Proof.
  intros Hidle Htimers; cbv zeta.
  rewrite menuItemClick_idle, simulateRestApiCall_run by assumption.
  simpl; rewrite Htimers; simpl.
  rewrite timeoutCallback_run; simpl.
  rewrite cycle_document by apply snd_outcome_call.
  now rewrite <- app_assoc.
Qed.

End Cycle.

(** X6. A completed call leaves no trace of its loading phase.  From an idle
    state with nothing pending, an accepted menu click followed by its
    callback gives back the globals it started from, and the page it leaves
    is the one that the outcome status call and [disableMenuItems(false)]
    alone would make of the starting page: the loading message, the loading
    class, the disabling and the delay draw have no lasting effect. *)
Theorem full_cycle_leaves_no_trace
        (host_querySelector : string -> Document -> Completion (option nat))
        (object_prototype_get : string -> option string)
        (this : nat) (r1 r2 : Q) (currentTime : string) (s : State) :
  isLoading s = false ->
  timers s = [] ->
  exists s2,
    step host_querySelector object_prototype_get (TimerFired 0 r2 currentTime)
         (snd (menuItemClick this r1 s)) = Some s2
    /\ globals s2 = globals s
    /\ document s2 =
         document
           (snd (disableMenuItems false
                   (snd (if success_of r2
                         then handleApiSuccess (itemName_of this s) currentTime s
                         else handleApiError (itemName_of this s) currentTime s)))).
Proof.
  intros Hidle Htimers.
  rewrite (cycle_closed_form host_querySelector object_prototype_get
             this r1 r2 currentTime s Hidle Htimers).
  eexists; split; [reflexivity|].
  split; [unfold globals; simpl; now rewrite Hidle, Htimers|].
  rewrite disableMenuItems_run; unfold outcome_call, handleApiSuccess, handleApiError.
  destruct (success_of r2); rewrite updateStatusMessage_exact; reflexivity.
Qed.

Lemma full_cycle_leaves_no_trace_witness :
  isLoading (initial sample_page) = false
  /\ timers (initial sample_page) = []
  /\ exists s2,
    step strict_host bare_prototype (TimerFired 0 (1 # 2) "12:00:00")
         (snd (menuItemClick 4 (1 # 4) (initial sample_page))) = Some s2
    /\ globals s2 = globals (initial sample_page)
    /\ document s2 =
         document
           (snd (disableMenuItems false
                   (snd (if success_of (1 # 2)
                         then handleApiSuccess (itemName_of 4 (initial sample_page))
                                               "12:00:00" (initial sample_page)
                         else handleApiError (itemName_of 4 (initial sample_page))
                                             "12:00:00" (initial sample_page))))).
Proof.
  split; [vm_compute; reflexivity|].
  split; [vm_compute; reflexivity|].
  apply (full_cycle_leaves_no_trace strict_host bare_prototype 4 (1 # 4) (1 # 2)
           "12:00:00" (initial sample_page));
    vm_compute; reflexivity.
Defined.

(** X7. Calls do not accumulate state.  After two complete calls in a row
    (click, callback, click, callback) from an idle state, the globals are
    those of the start and the page is the one that the second call alone
    would have left: nothing of the first call survives but its two entries
    in the record of status calls. *)
Theorem cycles_do_not_accumulate
        (host_querySelector : string -> Document -> Completion (option nat))
        (object_prototype_get : string -> option string)
        (this1 this2 : nat) (r1 r2 r3 r4 : Q) (time1 time2 : string) (s : State) :
  isLoading s = false ->
  timers s = [] ->
  exists s2 s4 s4',
    step host_querySelector object_prototype_get (TimerFired 0 r2 time1)
         (snd (menuItemClick this1 r1 s)) = Some s2
    /\ step host_querySelector object_prototype_get (TimerFired 0 r4 time2)
            (snd (menuItemClick this2 r3 s2)) = Some s4
    /\ step host_querySelector object_prototype_get (TimerFired 0 r4 time2)
            (snd (menuItemClick this2 r3 s)) = Some s4'
    /\ globals s4 = globals s
    /\ document s4 = document s4'
    /\ List.length (statusCalls s4) = (List.length (statusCalls s) + 4)%nat.
Proof.
  intros Hidle Htimers.
  rewrite (cycle_closed_form host_querySelector object_prototype_get
             this1 r1 r2 time1 s Hidle Htimers).
  eexists; eexists; eexists; split; [reflexivity|].
  rewrite (cycle_closed_form host_querySelector object_prototype_get
             this2 r3 r4 time2) by reflexivity.
  rewrite (cycle_closed_form host_querySelector object_prototype_get
             this2 r3 r4 time2 s Hidle Htimers).
  split; [reflexivity|]; split; [reflexivity|]; simpl.
  split; [unfold globals; simpl; now rewrite Hidle, Htimers|].
  split.
  - erewrite itemName_of_cycle by (simpl; reflexivity).
    set (call2 := outcome_call (itemName_of this2 s) (success_of r4) time2).
    set (call1 := outcome_call (itemName_of this1 s) (success_of r2) time1).
    assert (H1 : snd call1 = "success" \/ snd call1 = "error")
      by apply snd_outcome_call.
    assert (H2 : snd call2 = "success" \/ snd call2 = "error")
      by apply snd_outcome_call.
    rewrite show_status_menu_shown by (destruct H2 as [-> | ->]; reflexivity).
    rewrite menu_shown_menu_shown, show_status_last_wins; [reflexivity|].
    destruct H1 as [-> | ->]; simpl; auto.
  - rewrite !length_app; simpl; lia.
Qed.

Lemma cycles_do_not_accumulate_witness :
  isLoading (initial sample_page) = false
  /\ timers (initial sample_page) = []
  /\ exists s2 s4 s4',
    step strict_host bare_prototype (TimerFired 0 0 "12:00:00")
         (snd (menuItemClick 4 (1 # 4) (initial sample_page))) = Some s2
    /\ step strict_host bare_prototype (TimerFired 0 (1 # 2) "12:00:05")
            (snd (menuItemClick 5 (3 # 4) s2)) = Some s4
    /\ step strict_host bare_prototype (TimerFired 0 (1 # 2) "12:00:05")
            (snd (menuItemClick 5 (3 # 4) (initial sample_page))) = Some s4'
    /\ globals s4 = globals (initial sample_page)
    /\ document s4 = document s4'
    /\ List.length (statusCalls s4)
       = (List.length (statusCalls (initial sample_page)) + 4)%nat.
Proof.
  split; [vm_compute; reflexivity|].
  split; [vm_compute; reflexivity|].
  apply (cycles_do_not_accumulate strict_host bare_prototype 4 5 (1 # 4) 0 (3 # 4) (1 # 2)
           "12:00:00" "12:00:05" (initial sample_page));
    vm_compute; reflexivity.
Defined.

(** ** Switching tabs *)

Lemma bind_normal {A B : Type} (m : JS A) (k : A -> JS B) (s s' : State) (a : A) :
  m s = (Normal a, s') -> bind m k s = k a s'.
Proof. intros H; unfold bind; now rewrite H. Qed.

Lemma bind_throw {A B : Type} (m : JS A) (k : A -> JS B) (s s' : State) :
  m s = (Throw, s') -> bind m k s = (Throw, s').
Proof. intros H; unfold bind; now rewrite H. Qed.

Lemma update_at_out (i : nat) (f : Element -> Element) (d : Document) :
  nth_error d i = None -> update_at i f d = d.
Proof.
  revert i; induction d as [|x d IH]; intros [|i] H; simpl in *;
    try discriminate; auto.
  now rewrite IH.
Qed.

Lemma classList_add_at_active (node : nat) (s : State) :
  classList_add_at node "active" s
  = (Normal tt,
     mkState (currentTab s) (isLoading s) (timers s) (listeners s)
             (update_at node activated (document s)) (statusCalls s)).
Proof.
  unfold classList_add_at, bind, get_document; simpl.
  destruct (nth_error (document s) node) as [e|] eqn:He.
  - unfold classList_add; simpl; unfold set_document.
    do 2 f_equal. apply update_at_ext with (e := e); auto.
  - rewrite (update_at_out _ _ _ He); unfold ret; now destruct s.
Qed.

Lemma activate_at_run (o : option nat) (s : State) :
  match o with
  | Some b => classList_add_at b "active"
  | None => ret tt
  end s
  = (Normal tt,
     mkState (currentTab s) (isLoading s) (timers s) (listeners s)
             (activate_at o (document s)) (statusCalls s)).
Proof.
  destruct o; [apply classList_add_at_active|].
  unfold ret; simpl; now destruct s.
Qed.

Lemma nth_error_activate_at (o : option nat) (d : Document) (i : nat) :
  nth_error (activate_at o d) i
  = option_map (fun e => if is_node o i then activated e else e) (nth_error d i).
Proof.
  destruct o as [j|]; simpl.
  - destruct (Nat.eqb_spec j i) as [->|Hne].
    + apply nth_error_update_at_same.
    + rewrite nth_error_update_at_other by assumption.
      now destruct (nth_error d i).
  - now destruct (nth_error d i).
Qed.

Lemma nth_error_deactivate_class (c : string) (d : Document) (i : nat) :
  nth_error (deactivate_class c d) i
  = option_map (fun e => if has_class c e then deactivated e else e) (nth_error d i).
Proof. unfold deactivate_class; apply nth_error_map. Qed.

Lemma has_class_activated (c : string) (e : Element) :
  has_class c (activated e) = has_class c e || String.eqb c "active".
Proof.
  unfold has_class, activated; simpl.
  destruct (contains "active" (classList e)) eqn:Ha.
  - destruct (String.eqb_spec c "active") as [->|_];
      [now rewrite Ha | now rewrite orb_false_r].
  - rewrite contains_app; simpl; now rewrite orb_false_r.
Qed.

Lemma has_class_deactivated (c : string) (e : Element) :
  has_class c (deactivated e) = has_class c e && negb (String.eqb c "active").
Proof.
  unfold has_class, deactivated; simpl.
  rewrite contains_classList_remove; simpl; now rewrite orb_false_r.
Qed.

Lemma map_deactivate_class {X : Type} (g : Element -> X) (c : string) (d : Document) :
  (forall e, g (deactivated e) = g e) -> map g (deactivate_class c d) = map g d.
Proof.
  intros Hg; unfold deactivate_class; rewrite map_map; apply map_ext; intros e.
  destruct (has_class c e); auto.
Qed.

Lemma map_activate_at {X : Type} (g : Element -> X) (o : option nat) (d : Document) :
  (forall e, g (activated e) = g e) -> map g (activate_at o d) = map g d.
Proof. intros Hg; destruct o; simpl; auto using map_update_at. Qed.

(** The highlighting steps change no [data-tab] and no id, so both lookups
    of [switchToTab] find what they would find on the page it started
    from. *)
Lemma querySelector_data_tab_is_deactivate (v c : string) (d : Document) :
  querySelector (data_tab_is v) (deactivate_class c d) = querySelector (data_tab_is v) d.
Proof.
  unfold querySelector, data_tab_is.
  rewrite (querySelectorAll_ext data_tab
             (fun o => match o with Some a => String.eqb a v | None => false end)
             (deactivate_class c d) d); auto.
  apply map_deactivate_class; reflexivity.
Qed.

Lemma getElementById_switch_steps (v : string) (o : option nat) (d : Document) :
  getElementById v
    (deactivate_class "tab-content" (activate_at o (deactivate_class "tab-button" d)))
  = getElementById v d.
Proof.
  apply getElementById_ext.
  rewrite map_deactivate_class, map_activate_at, map_deactivate_class; reflexivity.
Qed.

Lemma nth_error_switched (v : string) (d : Document) (i : nat) (e : Element) :
  nth_error d i = Some e ->
  exists e',
    nth_error (switched v d) i = Some e'
    /\ has_class "active" e' = active_after v d i e.
Proof.
  intros He; unfold switched, switched_from; cbv zeta.
  rewrite getElementById_switch_steps, querySelector_data_tab_is_deactivate.
  rewrite nth_error_activate_at, nth_error_deactivate_class, nth_error_activate_at,
    nth_error_deactivate_class, He; simpl.
  eexists; split; [reflexivity|]; unfold active_after.
  set (c := is_node (getElementById v d) i).
  set (b := is_node (querySelector (data_tab_is v) d) i).
  destruct c; [now rewrite has_class_activated, orb_true_r|].
  assert (Htc : has_class "tab-content"
                  (if b
                   then activated (if has_class "tab-button" e then deactivated e else e)
                   else if has_class "tab-button" e then deactivated e else e)
                = has_class "tab-content" e).
  { destruct b, (has_class "tab-button" e);
      rewrite ?has_class_activated, ?has_class_deactivated; simpl;
      now rewrite ?orb_false_r, ?andb_true_r. }
  rewrite Htc.
  destruct (has_class "tab-content" e);
    [now rewrite has_class_deactivated, andb_false_r|].
  destruct b; [now rewrite has_class_activated, orb_true_r|].
  destruct (has_class "tab-button" e); [|reflexivity].
  now rewrite has_class_deactivated, andb_false_r.
Qed.

Section Switch.

Variable host_querySelector : string -> Document -> Completion (option nat).
Variable object_prototype_get : string -> option string.

(** [switchToTab] in closed form, for a tab id that a CSS string denotes
    verbatim. *)
Lemma switchToTab_run (tabId : option string) (s : State) :
  css_plain (toString tabId) = true ->
  switchToTab host_querySelector object_prototype_get tabId s
  = (Normal tt,
     mkState tabId (isLoading s) (timers s) (listeners s)
             (show_status ("Switched to " ++ getTabDisplayName object_prototype_get tabId)
                          "success" (switched (toString tabId) (document s)))
             (statusCalls s
                ++ [("Switched to " ++ getTabDisplayName object_prototype_get tabId,
                     "success")])).
Proof.
  intros Hplain; unfold switchToTab.
  erewrite bind_normal by reflexivity.
  erewrite bind_normal by reflexivity.
  cbv zeta; erewrite bind_normal by reflexivity.
  erewrite bind_normal
    by (unfold querySelector_data_tab; cbv zeta; rewrite Hplain; reflexivity).
  erewrite bind_normal by apply activate_at_run.
  erewrite bind_normal by reflexivity.
  erewrite bind_normal by reflexivity.
  erewrite bind_normal by reflexivity.
  erewrite bind_normal by apply activate_at_run.
  rewrite updateStatusMessage_normal by reflexivity.
  cbn [currentTab isLoading timers listeners document statusCalls].
  rewrite !forEach_querySelectorAll.
  reflexivity.
Qed.

(** [switchToTab] when the selector is refused. *)
Lemma switchToTab_throw (tabId : option string) (s : State) :
  css_plain (toString tabId) = false ->
  host_querySelector ("[data-tab=" ++ dquote ++ toString tabId ++ dquote ++ "]")
                     (deactivate_class "tab-button" (document s)) = Throw ->
  switchToTab host_querySelector object_prototype_get tabId s
  = (Throw,
     mkState tabId (isLoading s) (timers s) (listeners s)
             (deactivate_class "tab-button" (document s)) (statusCalls s)).
Proof.
  intros Hplain Hthrow; unfold switchToTab.
  erewrite bind_normal by reflexivity.
  erewrite bind_normal by reflexivity.
  cbv zeta; erewrite bind_normal by reflexivity.
  erewrite bind_throw; [reflexivity|].
  unfold querySelector_data_tab; cbv zeta; rewrite Hplain.
  cbn [currentTab isLoading timers listeners document statusCalls].
  rewrite forEach_querySelectorAll.
  unfold deactivate_class, deactivated in *; now rewrite Hthrow.
Qed.

Lemma tabButtonClick_idle (this : nat) (s : State) :
  isLoading s = false ->
  tabButtonClick host_querySelector object_prototype_get this s
  = switchToTab host_querySelector object_prototype_get
                (match nth_error (document s) this with
                 | Some e => data_tab e
                 | None => None
                 end) s.
Proof.
  intros Hidle; unfold tabButtonClick, bind, get_isLoading; rewrite Hidle.
  reflexivity.
Qed.

Lemma preserves_globals_updateStatusMessage (message type : string) :
  preserves globals (updateStatusMessage message type).
Proof. intros s; now rewrite updateStatusMessage_exact. Qed.

Lemma preserves_globals_classList_add_at (node : nat) (tok : string) :
  preserves globals (classList_add_at node tok).
Proof.
  intros s; unfold classList_add_at, bind, get_document; simpl.
  destruct (nth_error (document s) node) as [e|]; [|reflexivity].
  destruct (classList_add tok (classList e)); reflexivity.
Qed.

Lemma preserves_globals_querySelector_data_tab (tabId : option string) :
  preserves globals (querySelector_data_tab host_querySelector tabId).
Proof.
  intros s; unfold querySelector_data_tab.
  destruct (css_plain (toString tabId)); reflexivity.
Qed.

(** Whatever happens after its first statement, [switchToTab] has written
    [currentTab] and nothing else of the globals. *)
Lemma switchToTab_globals (tabId : option string) (s : State) :
  globals (snd (switchToTab host_querySelector object_prototype_get tabId s))
  = (tabId, isLoading s, timers s, listeners s).
Proof.
  unfold switchToTab.
  erewrite bind_normal by reflexivity.
  match goal with
  | |- globals (snd (?m ?s0)) = _ =>
      transitivity (globals s0); [| reflexivity];
      generalize s0; change (preserves globals m)
  end.
  repeat first
    [ apply preserves_globals_updateStatusMessage
    | apply preserves_globals_classList_add_at
    | apply preserves_globals_querySelector_data_tab
    | apply preserves_ret
    | match goal with
      | |- preserves _ (match ?x with _ => _ end) => destruct x
      end
    | apply preserves_bind; [| intros ?]
    | intros s1; reflexivity ].
Qed.

End Switch.

Lemma active_flags_show_status_success (message : string) (d : Document) :
  active_flags (show_status message "success" d) = active_flags d.
Proof.
  apply map_show_status; intros e.
  apply has_class_status_shown_other; reflexivity.
Qed.

Lemma nth_error_active_flags_switched (v message : string) (d : Document)
      (i : nat) (e : Element) :
  nth_error d i = Some e ->
  nth_error (active_flags (show_status message "success" (switched v d))) i
  = Some (active_after v d i e).
Proof.
  intros He; rewrite active_flags_show_status_success.
  unfold active_flags; rewrite nth_error_map.
  destruct (nth_error_switched v d i e He) as [e' [-> <-]]; reflexivity.
Qed.

(** X8. Highlighting after [switchToTab].  For a tab id that the selector
    string denotes verbatim the function returns normally, writes
    [currentTab] and no other global, reports the switch with the display
    name, and leaves each element highlighted as follows: the element whose
    id is the tab id is active; any other tab-content panel is not; then
    the first element whose [data-tab] is the tab id is active; any other
    tab button is not; every other element keeps what it had.  So at most
    one panel is shown, and a tab button that is neither a panel nor the
    element with that id is lit exactly when it is the one looked up. *)
Theorem switchToTab_highlighting
        (host_querySelector : string -> Document -> Completion (option nat))
        (object_prototype_get : string -> option string)
        (tabId : option string) (s : State) (i : nat) (e : Element) :
  css_plain (toString tabId) = true ->
  nth_error (document s) i = Some e ->
  exists s',
    switchToTab host_querySelector object_prototype_get tabId s = (Normal tt, s')
    /\ globals s' = (tabId, isLoading s, timers s, listeners s)
    /\ statusCalls s' =
         (statusCalls s
            ++ [(("Switched to " ++ getTabDisplayName object_prototype_get tabId)%string,
                 "success")])%list
    /\ nth_error (active_flags (document s')) i =
         Some (if is_node (getElementById (toString tabId) (document s)) i then true
               else if has_class "tab-content" e then false
               else if is_node (querySelector (data_tab_is (toString tabId)) (document s)) i
                    then true
               else if has_class "tab-button" e then false
               else has_class "active" e).
Proof.
  intros Hplain He; rewrite switchToTab_run by assumption.
  eexists; split; [reflexivity|]; simpl.
  do 2 (split; [reflexivity|]).
  now apply nth_error_active_flags_switched.
Qed.

Lemma switchToTab_highlighting_witness :
  css_plain (toString (Some "tab2")) = true
  /\ nth_error (document (initial sample_page)) 0
     = Some (sample_element None ["tab-button"; "active"] (Some "tab1") None)
  /\ exists s',
    switchToTab strict_host bare_prototype (Some "tab2") (initial sample_page)
    = (Normal tt, s')
    /\ globals s' = (Some "tab2", isLoading (initial sample_page),
                     timers (initial sample_page), listeners (initial sample_page))
    /\ statusCalls s' =
         (statusCalls (initial sample_page)
            ++ [(("Switched to " ++ getTabDisplayName bare_prototype (Some "tab2"))%string,
                 "success")])%list
    /\ nth_error (active_flags (document s')) 0 =
         Some (if is_node (getElementById (toString (Some "tab2"))
                                          (document (initial sample_page))) 0
               then true
               else if has_class "tab-content"
                         (sample_element None ["tab-button"; "active"] (Some "tab1") None)
               then false
               else if is_node (querySelector (data_tab_is (toString (Some "tab2")))
                                              (document (initial sample_page))) 0
                    then true
               else if has_class "tab-button"
                         (sample_element None ["tab-button"; "active"] (Some "tab1") None)
               then false
               else has_class "active"
                      (sample_element None ["tab-button"; "active"] (Some "tab1") None)).
Proof.
  split; [reflexivity|].
  split; [vm_compute; reflexivity|].
  apply (switchToTab_highlighting strict_host bare_prototype (Some "tab2")
           (initial sample_page) 0);
    vm_compute; reflexivity.
Defined.

(** X9. Switching to a tab the page does not have.  For a tab id whose
    printed form holds no double quote, backslash, NUL or line break (so
    that the selector of line 73 is the attribute selector for that very
    value), when no element has the tab id as its [data-tab] or as its id,
    [switchToTab] still returns normally, still sets [currentTab] to that
    id and still reports the switch as a success; every tab button and
    every panel is left without the class [active], so nothing is shown.
    (For a tab id with one of these characters see X10: the call can
    throw.) *)
Theorem switchToTab_unknown_tab
        (host_querySelector : string -> Document -> Completion (option nat))
        (object_prototype_get : string -> option string)
        (tabId : option string) (s : State) :
  css_plain (toString tabId) = true ->
  querySelector (data_tab_is (toString tabId)) (document s) = None ->
  getElementById (toString tabId) (document s) = None ->
  exists s',
    switchToTab host_querySelector object_prototype_get tabId s = (Normal tt, s')
    /\ currentTab s' = tabId
    /\ last (statusCalls s') (EmptyString, EmptyString) =
         (("Switched to " ++ getTabDisplayName object_prototype_get tabId)%string,
          "success")
    /\ forall i e,
        nth_error (document s) i = Some e ->
        nth_error (active_flags (document s')) i =
          Some (if has_class "tab-content" e || has_class "tab-button" e
                then false
                else has_class "active" e).
Proof.
  intros Hplain Hb Hc; rewrite switchToTab_run by assumption.
  eexists; split; [reflexivity|]; simpl.
  split; [reflexivity|].
  split; [apply last_last|].
  intros i e He.
  rewrite (nth_error_active_flags_switched _ _ _ i e He).
  unfold active_after; rewrite Hb, Hc; simpl.
  now destruct (has_class "tab-content" e), (has_class "tab-button" e).
Qed.

Lemma switchToTab_unknown_tab_witness :
  css_plain (toString (Some "tab9")) = true
  /\ querySelector (data_tab_is (toString (Some "tab9"))) (document (initial sample_page))
     = None
  /\ getElementById (toString (Some "tab9")) (document (initial sample_page)) = None
  /\ exists s',
    switchToTab strict_host bare_prototype (Some "tab9") (initial sample_page)
    = (Normal tt, s')
    /\ currentTab s' = Some "tab9"
    /\ last (statusCalls s') (EmptyString, EmptyString) =
         (("Switched to " ++ getTabDisplayName bare_prototype (Some "tab9"))%string,
          "success")
    /\ forall i e,
        nth_error (document (initial sample_page)) i = Some e ->
        nth_error (active_flags (document s')) i =
          Some (if has_class "tab-content" e || has_class "tab-button" e
                then false
                else has_class "active" e).
Proof.
  split; [reflexivity|].
  split; [vm_compute; reflexivity|].
  split; [vm_compute; reflexivity|].
  apply (switchToTab_unknown_tab strict_host bare_prototype (Some "tab9")
           (initial sample_page));
    vm_compute; reflexivity.
Defined.

(** X10. [switchToTab] is not atomic.  When the tab id holds a character
    that breaks the selector string and the browser refuses the selector,
    the function throws half way: [currentTab] already holds the new id
    and every tab button has lost [active], while no button has been lit,
    the panels and all other elements are as they were, and no status call
    has been made. *)
Theorem switchToTab_selector_throws
        (host_querySelector : string -> Document -> Completion (option nat))
        (object_prototype_get : string -> option string)
        (tabId : option string) (s : State) :
  css_plain (toString tabId) = false ->
  (forall d,
      host_querySelector ("[data-tab=" ++ dquote ++ toString tabId ++ dquote ++ "]") d
      = Throw) ->
  exists s',
    switchToTab host_querySelector object_prototype_get tabId s = (Throw, s')
    /\ globals s' = (tabId, isLoading s, timers s, listeners s)
    /\ statusCalls s' = statusCalls s
    /\ forall i e,
        nth_error (document s) i = Some e ->
        nth_error (document s') i =
          Some (if has_class "tab-button" e
                then set_classList (classList_remove ["active"] (classList e)) e
                else e).
Proof.
  intros Hplain Hthrow.
  rewrite (switchToTab_throw host_querySelector object_prototype_get tabId s Hplain)
    by apply Hthrow.
  eexists; split; [reflexivity|]; simpl.
  do 2 (split; [reflexivity|]).
  intros i e He; rewrite nth_error_deactivate_class, He; reflexivity.
Qed.

Lemma switchToTab_selector_throws_witness :
  css_plain (toString (Some ("a" ++ dquote ++ "b"))) = false
  /\ (forall d,
         strict_host ("[data-tab=" ++ dquote ++ toString (Some ("a" ++ dquote ++ "b"))
                        ++ dquote ++ "]") d
         = Throw)
  /\ exists s',
    switchToTab strict_host bare_prototype (Some ("a" ++ dquote ++ "b"))
                (initial sample_page) = (Throw, s')
    /\ globals s' = (Some ("a" ++ dquote ++ "b"), isLoading (initial sample_page),
                     timers (initial sample_page), listeners (initial sample_page))
    /\ statusCalls s' = statusCalls (initial sample_page)
    /\ forall i e,
        nth_error (document (initial sample_page)) i = Some e ->
        nth_error (document s') i =
          Some (if has_class "tab-button" e
                then set_classList (classList_remove ["active"] (classList e)) e
                else e).
Proof.
  split; [reflexivity|].
  split; [reflexivity|].
  apply (switchToTab_selector_throws strict_host bare_prototype
           (Some ("a" ++ dquote ++ "b")) (initial sample_page));
    reflexivity.
Defined.

(** X11. A tab click while idle.  With the busy flag clear, the click
    listener of a tab button sets [currentTab] to the [data-tab] attribute of
    the clicked element, [null] when it has none, and does so whether
    [switchToTab] then returns or throws; it never sets the flag, schedules
    or cancels a callback, or touches the listeners. *)
Theorem tab_click_sets_currentTab
        (host_querySelector : string -> Document -> Completion (option nat))
        (object_prototype_get : string -> option string)
        (this : nat) (e : Element) (s : State) :
  isLoading s = false ->
  nth_error (document s) this = Some e ->
  currentTab (snd (tabButtonClick host_querySelector object_prototype_get this s))
  = data_tab e
  /\ isLoading (snd (tabButtonClick host_querySelector object_prototype_get this s))
     = false
  /\ timers (snd (tabButtonClick host_querySelector object_prototype_get this s))
     = timers s
  /\ listeners (snd (tabButtonClick host_querySelector object_prototype_get this s))
     = listeners s.
Proof.
  intros Hidle He; rewrite tabButtonClick_idle by assumption; rewrite He.
  pose proof (switchToTab_globals host_querySelector object_prototype_get
                (data_tab e) s) as Hg.
  unfold globals in Hg; injection Hg as -> -> -> ->; auto.
Qed.

Lemma tab_click_sets_currentTab_witness :
  isLoading (initial sample_page) = false
  /\ nth_error (document (initial sample_page)) 1
     = Some (sample_element None ["tab-button"] (Some "tab2") None)
  /\ currentTab (snd (tabButtonClick strict_host bare_prototype 1 (initial sample_page)))
     = data_tab (sample_element None ["tab-button"] (Some "tab2") None)
  /\ isLoading (snd (tabButtonClick strict_host bare_prototype 1 (initial sample_page)))
     = false
  /\ timers (snd (tabButtonClick strict_host bare_prototype 1 (initial sample_page)))
     = timers (initial sample_page)
  /\ listeners (snd (tabButtonClick strict_host bare_prototype 1 (initial sample_page)))
     = listeners (initial sample_page).
Proof.
  split; [vm_compute; reflexivity|].
  split; [vm_compute; reflexivity|].
  apply (tab_click_sets_currentTab strict_host bare_prototype 1
           (sample_element None ["tab-button"] (Some "tab2") None) (initial sample_page));
    vm_compute; reflexivity.
Defined.

(** ** What no event changes *)

Section SwitchCases.

Variable host_querySelector : string -> Document -> Completion (option nat).
Variable object_prototype_get : string -> option string.

(** [switchToTab] in closed form, whatever the tab id. *)
Lemma switchToTab_cases (tabId : option string) (s : State) :
  let d1 := deactivate_class "tab-button" (document s) in
  let message := "Switched to " ++ getTabDisplayName object_prototype_get tabId in
  switchToTab host_querySelector object_prototype_get tabId s
  = match select_tab_button host_querySelector tabId d1 with
    | Normal o =>
        (Normal tt,
         mkState tabId (isLoading s) (timers s) (listeners s)
                 (show_status message "success" (switched_from o (toString tabId) d1))
                 (statusCalls s ++ [(message, "success")]))
    | Throw =>
        (Throw,
         mkState tabId (isLoading s) (timers s) (listeners s) d1 (statusCalls s))
    end.
Proof.
  cbv zeta; unfold switchToTab.
  erewrite bind_normal by reflexivity.
  erewrite bind_normal by reflexivity.
  cbv zeta; erewrite bind_normal by reflexivity.
  cbn [currentTab isLoading timers listeners document statusCalls].
  rewrite forEach_querySelectorAll.
  change (map (fun e => if has_class "tab-button" e
                        then set_classList (classList_remove ["active"] (classList e)) e
                        else e) (document s))
    with (deactivate_class "tab-button" (document s)).
  set (d1 := deactivate_class "tab-button" (document s)).
  set (st := mkState tabId (isLoading s) (timers s) (listeners s) d1 (statusCalls s)).
  assert (Hq : querySelector_data_tab host_querySelector tabId st
               = (select_tab_button host_querySelector tabId d1, st)).
  { unfold querySelector_data_tab, select_tab_button; cbv zeta.
    destruct (css_plain (toString tabId)); reflexivity. }
  destruct (select_tab_button host_querySelector tabId d1) as [o|].
  - erewrite bind_normal by exact Hq.
    erewrite bind_normal by apply activate_at_run.
    erewrite bind_normal by reflexivity.
    erewrite bind_normal by reflexivity.
    erewrite bind_normal by reflexivity.
    erewrite bind_normal by apply activate_at_run.
    rewrite updateStatusMessage_normal by reflexivity.
    cbn [currentTab isLoading timers listeners document statusCalls].
    rewrite !forEach_querySelectorAll.
    reflexivity.
  - erewrite bind_throw by exact Hq. reflexivity.
Qed.

End SwitchCases.

Lemma classList_remove_subsumed (toks1 toks2 l : list string) :
  (forall c, contains c toks1 = true -> contains c toks2 = true) ->
  classList_remove toks2 (classList_remove toks1 l) = classList_remove toks2 l.
Proof.
  intros Hsub; unfold classList_remove; induction l as [|x l IH]; simpl; auto.
  destruct (contains x toks1) eqn:H1; simpl.
  - now rewrite (Hsub x H1), IH.
  - now rewrite IH.
Qed.

Lemma styling_in_transient (c : string) :
  contains c styling_classes = true -> contains c transient_classes = true.
Proof.
  unfold styling_classes, transient_classes; simpl.
  intros H; rewrite H; apply orb_true_r.
Qed.

Lemma active_in_transient (c : string) :
  contains c ["active"] = true -> contains c transient_classes = true.
Proof.
  unfold transient_classes; simpl; rewrite orb_false_r; intros ->; reflexivity.
Qed.

Lemma skeleton_deactivated (e : Element) : skeleton (deactivated e) = skeleton e.
Proof.
  unfold skeleton, is_status_element.
  rewrite has_class_deactivated; unfold deactivated; simpl.
  rewrite andb_true_r.
  now rewrite (classList_remove_subsumed _ _ _ active_in_transient).
Qed.

Lemma skeleton_activated (e : Element) : skeleton (activated e) = skeleton e.
Proof.
  unfold skeleton, is_status_element.
  rewrite has_class_activated; unfold activated; simpl.
  rewrite orb_false_r.
  destruct (contains "active" (classList e)); [reflexivity|].
  rewrite classList_remove_app; unfold classList_remove at 2; simpl.
  now rewrite app_nil_r.
Qed.

Lemma skeleton_item_shown (b : bool) (e : Element) :
  has_class "menu-item" e = true -> skeleton (item_shown b e) = skeleton e.
Proof.
  intros Hmi; unfold skeleton, is_status_element.
  rewrite has_class_item_shown, Hmi; destruct b; reflexivity.
Qed.

Lemma skeleton_status_shown (message type : string) (e : Element) :
  In type [EmptyString; "loading"; "success"; "error"] ->
  is_status_element e = true ->
  skeleton (status_shown message type e) = skeleton e.
Proof.
  intros Hin Hst; unfold skeleton.
  assert (Hmi : has_class "menu-item" (status_shown message type e)
                = has_class "menu-item" e).
  { apply has_class_status_shown_other; [|reflexivity].
    simpl in Hin; destruct Hin as [<-|[<-|[<-|[<-|[]]]]]; reflexivity. }
  rewrite Hmi, status_shown_eq; unfold is_status_element in *; simpl; rewrite Hst.
  assert (Hcl : classList_remove transient_classes (status_classes type (classList e))
                = classList_remove transient_classes (classList e)).
  { rewrite <- (classList_remove_subsumed styling_classes transient_classes
                  (status_classes type (classList e)) styling_in_transient).
    rewrite classList_remove_status_classes by assumption.
    apply classList_remove_subsumed, styling_in_transient. }
  now rewrite Hcl.
Qed.

Lemma map_update_at_here {X : Type} (g : Element -> X) (i : nat)
      (f : Element -> Element) (d : Document) (e : Element) :
  nth_error d i = Some e -> g (f e) = g e -> map g (update_at i f d) = map g d.
Proof.
  revert i; induction d as [|x d IH]; intros [|i]; simpl; try discriminate.
  - intros [= ->] ->; reflexivity.
  - intros H1 H2; f_equal; eauto.
Qed.

Lemma skeleton_show_status (message type : string) (d : Document) :
  In type [EmptyString; "loading"; "success"; "error"] ->
  map skeleton (show_status message type d) = map skeleton d.
Proof.
  intros Hin; unfold show_status.
  destruct (getElementById "statusMessage" d) as [i|] eqn:Hid; [|reflexivity].
  destruct (getElementById_sound _ _ _ Hid) as [e [He Hel]].
  apply map_update_at_here with (e := e); auto.
  apply skeleton_status_shown; auto.
  unfold is_status_element; now rewrite Hel.
Qed.

Lemma skeleton_menu_shown (b : bool) (d : Document) :
  map skeleton (menu_shown b d) = map skeleton d.
Proof.
  unfold menu_shown; rewrite map_map; apply map_ext; intros e.
  destruct (has_class "menu-item" e) eqn:Hmi; auto using skeleton_item_shown.
Qed.

Lemma skeleton_switched_from (o : option nat) (v : string) (d1 : Document) :
  map skeleton (switched_from o v d1) = map skeleton d1.
Proof.
  unfold switched_from; cbv zeta.
  rewrite map_activate_at, map_deactivate_class, map_activate_at;
    auto using skeleton_activated, skeleton_deactivated.
Qed.

Lemma initial_closed_form (d : Document) :
  initial d
  = mkState (Some "tab1") false []
            (map (fun i => (i, TabButtonClick)) (querySelectorAll (has_class "tab-button") d)
               ++ map (fun i => (i, MenuItemClick))
                      (querySelectorAll (has_class "menu-item") d))
            (show_status "Application initialized - Ready to use" EmptyString d)
            [("Application initialized - Ready to use", EmptyString)].
Proof.
  unfold initial, onDOMContentLoaded, initializeTabSystem, initializeMenuItems.
  erewrite bind_normal by reflexivity.
  erewrite bind_normal by reflexivity.
  now rewrite updateStatusMessage_normal.
Qed.

Lemma skeleton_nth (d d' : Document) (i : nat) (e : Element) :
  map skeleton d' = map skeleton d ->
  nth_error d i = Some e ->
  exists e', nth_error d' i = Some e' /\ skeleton e' = skeleton e.
Proof.
  intros Hmap He.
  assert (H := f_equal (fun l => nth_error l i) Hmap); simpl in H.
  rewrite !nth_error_map, He in H; simpl in H.
  destruct (nth_error d' i) as [e'|]; simpl in H; [|discriminate].
  exists e'; split; congruence.
Qed.

Lemma skeleton_has_class (c : string) (e e' : Element) :
  skeleton e' = skeleton e ->
  contains c transient_classes = false ->
  has_class c e' = has_class c e.
Proof.
  unfold skeleton; intros [= _ _ _ Hcl _ _] Hc; unfold has_class.
  assert (H := f_equal (contains c) Hcl).
  now rewrite !contains_classList_remove, Hc, !andb_true_r in H.
Qed.

(** An invariant of the listeners registered on the target is an invariant
    of a click. *)
Lemma dispatch_invariant_in
      (host_querySelector : string -> Document -> Completion (option nat))
      (object_prototype_get : string -> option string)
      (P : State -> Prop) (ls : list (nat * Listener)) (target : nat) (random : Q) :
  (forall l s,
      In (target, l) ls -> P s ->
      P (snd (run_listener host_querySelector object_prototype_get l target random s))) ->
  forall s, P s -> P (dispatch host_querySelector object_prototype_get ls target random s).
Proof.
  induction ls as [|[node l] ls IH]; intros Hstep s Hs; simpl; auto.
  destruct (Nat.eqb_spec node target) as [->|Hne].
  - apply IH; [intros; apply Hstep; simpl; auto|].
    apply Hstep; simpl; auto.
  - apply IH; [intros; apply Hstep; simpl; auto | assumption].
Qed.

Lemma tab_listener_on_tab_button (d : Document) (target : nat) :
  In (target, TabButtonClick) (listeners (initial d)) ->
  exists e, nth_error d target = Some e /\ has_class "tab-button" e = true.
Proof.
  rewrite initial_closed_form; simpl; intros Hin.
  apply in_app_or in Hin; destruct Hin as [Hin|Hin];
    apply in_map_iff in Hin; destruct Hin as [i [[= <-] Hi]]; try discriminate.
  now apply querySelectorAll_sound in Hi.
Qed.

Section PageInvariant.

Variable host_querySelector : string -> Document -> Completion (option nat).
Variable object_prototype_get : string -> option string.

Lemma advised_page_invariant (d : Document) (call : string * string) (s : State) :
  snd call = "error" ->
  page_invariant d s -> page_invariant d (advised call s).
Proof.
  intros Hcall [Hl [Hsk Ht]]; unfold page_invariant, advised; simpl.
  rewrite skeleton_show_status by (rewrite Hcall; simpl; auto).
  auto.
Qed.

Lemma run_listener_page_invariant (d : Document) (l : Listener) (this : nat)
      (random : Q) (s : State) :
  In (this, l) (listeners (initial d)) ->
  page_invariant d s ->
  page_invariant d
    (snd (run_listener host_querySelector object_prototype_get l this random s)).
Proof.
  intros Hin Hinv; destruct l; simpl.
  - destruct (isLoading s) eqn:Hload.
    + rewrite (tabButtonClick_busy host_querySelector object_prototype_get this s Hload).
      now apply advised_page_invariant.
    + rewrite tabButtonClick_idle by assumption.
      destruct Hinv as [Hl [Hsk Ht]].
      destruct (tab_listener_on_tab_button d this Hin) as [e [He Htb]].
      destruct (skeleton_nth d (document s) this e Hsk He) as [e' [He' Hske]].
      rewrite He'.
      assert (Hdt : data_tab e' = data_tab e)
        by (unfold skeleton in Hske; now injection Hske).
      pose proof (switchToTab_cases host_querySelector object_prototype_get
                    (data_tab e') s) as Hcases; cbv zeta in Hcases.
      rewrite Hcases.
      destruct (select_tab_button host_querySelector (data_tab e')
                  (deactivate_class "tab-button" (document s))) as [o|];
        unfold page_invariant; simpl.
      * rewrite skeleton_show_status by (simpl; auto).
        rewrite skeleton_switched_from, map_deactivate_class
          by apply skeleton_deactivated.
        repeat split; auto.
        right; exists this, e; rewrite Hdt; auto.
      * rewrite map_deactivate_class by apply skeleton_deactivated.
        repeat split; auto.
        right; exists this, e; rewrite Hdt; auto.
  - destruct (isLoading s) eqn:Hload.
    + rewrite menuItemClick_busy by assumption.
      now apply advised_page_invariant.
    + rewrite menuItemClick_idle, simulateRestApiCall_run by assumption.
      destruct Hinv as [Hl [Hsk Ht]]; unfold page_invariant; simpl.
      rewrite skeleton_menu_shown, skeleton_show_status by (simpl; auto).
      auto.
Qed.

Lemma step_page_invariant (d : Document) (e : Event) (s s' : State) :
  page_invariant d s ->
  step host_querySelector object_prototype_get e s = Some s' ->
  page_invariant d s'.
Proof.
  intros Hinv; destruct e as [target random|i random now]; simpl.
  - destruct (target <? List.length (document s))%nat; [|discriminate].
    intros [= <-].
    apply dispatch_invariant_in; auto.
    intros l s1 Hin; apply run_listener_page_invariant.
    destruct Hinv as [Hl _]; now rewrite <- Hl.
  - destruct (nth_error (timers s) i) as [t|]; [|discriminate].
    intros [= <-]; rewrite timeoutCallback_run; simpl.
    destruct Hinv as [Hl [Hsk Ht]]; unfold page_invariant; simpl.
    rewrite skeleton_menu_shown, skeleton_show_status; auto.
    destruct (snd_outcome_call (timer_itemName t) (success_of random) now) as [-> | ->];
      simpl; auto.
Qed.

Lemma initial_page_invariant (d : Document) : page_invariant d (initial d).
Proof.
  unfold page_invariant; split; [reflexivity|].
  rewrite initial_closed_form; simpl.
  rewrite skeleton_show_status by (simpl; auto).
  split; [reflexivity | now left].
Qed.

Lemma run_page_invariant (d : Document) (es : list Event) (s s' : State) :
  page_invariant d s ->
  run host_querySelector object_prototype_get es s = Some s' ->
  page_invariant d s'.
Proof.
  revert s; induction es as [|e es IH]; intros s Hinv; simpl.
  - now intros [= <-].
  - destruct (step host_querySelector object_prototype_get e s) as [s1|] eqn:Hstep;
      [|discriminate].
    apply IH; eapply step_page_invariant; eauto.
Qed.

End PageInvariant.

(** X12. What no event changes.  In every state reached from the initial
    state of a page, an element of the loaded page that is still on the
    page has kept its id, its [data-tab] and [data-item] attributes and
    every class other than [active], [loading], [success] and [error]; and
    when it did not have the class [menu-item], it has kept its [disabled]
    flag, opacity and cursor.  (Nothing is said of the number of elements
    or of their text: writing the text of the status element replaces what
    that element contains.) *)
Theorem page_structure_is_invariant
        (host_querySelector : string -> Document -> Completion (option nat))
        (object_prototype_get : string -> option string)
        (d : Document) (es : list Event) (s : State) :
  run host_querySelector object_prototype_get es (initial d) = Some s ->
  forall i e e',
    nth_error d i = Some e ->
    nth_error (document s) i = Some e' ->
    el_id e' = el_id e
    /\ data_tab e' = data_tab e
    /\ data_item e' = data_item e
    /\ (forall c,
           contains c ["active"; "loading"; "success"; "error"] = false ->
           has_class c e' = has_class c e)
    /\ (has_class "menu-item" e = false ->
        disabled e' = disabled e
        /\ style_opacity e' = style_opacity e
        /\ style_cursor e' = style_cursor e).
Proof.
  intros Hrun i e e0 He He0.
  destruct (run_page_invariant host_querySelector object_prototype_get d es
              (initial d) s (initial_page_invariant d) Hrun) as [_ [Hsk _]].
  destruct (skeleton_nth d (document s) i e Hsk He) as [e' [He' Hske]].
  assert (e0 = e') by congruence; subst e0.
  assert (Hmi : has_class "menu-item" e' = has_class "menu-item" e)
    by (apply skeleton_has_class; auto).
  pose proof Hske as Hfields; unfold skeleton in Hfields.
  injection Hfields as Hid Hdt Hdi _ Hstyle _.
  do 3 (split; [assumption|]).
  split; [intros c Hc; now apply skeleton_has_class|].
  intros Hno; rewrite Hmi, Hno in Hstyle.
  injection Hstyle as -> -> ->; auto.
Qed.

Lemma page_structure_is_invariant_witness :
  run strict_host bare_prototype [Click 4 (1 # 2)] (initial sample_page) = Some sample_busy
  /\ forall i e e',
      nth_error sample_page i = Some e ->
      nth_error (document sample_busy) i = Some e' ->
      el_id e' = el_id e
      /\ data_tab e' = data_tab e
      /\ data_item e' = data_item e
      /\ (forall c,
             contains c ["active"; "loading"; "success"; "error"] = false ->
             has_class c e' = has_class c e)
      /\ (has_class "menu-item" e = false ->
          disabled e' = disabled e
          /\ style_opacity e' = style_opacity e
          /\ style_cursor e' = style_cursor e).
Proof.
  split; [vm_compute; reflexivity|].
  apply (page_structure_is_invariant strict_host bare_prototype sample_page
           [Click 4 (1 # 2)]).
  vm_compute; reflexivity.
Defined.

(** The same on a longer run of the sample page: a tab switch, then a call
    that completes.  The status element is element 6 before and after. *)
Example page_structure_after_a_cycle :
  option_map
    (fun s => map (fun e => (el_id e, data_tab e, data_item e)) (document s))
    (run strict_host bare_prototype
         [Click 1 0; Click 4 (1 # 2); TimerFired 0 (1 # 2) "10:15:00"]
         (initial sample_page))
  = Some (map (fun e => (el_id e, data_tab e, data_item e)) sample_page).
Proof. vm_compute; reflexivity. Qed.

(** ** Which listeners a click runs *)

Section Dispatch.

Variable host_querySelector : string -> Document -> Completion (option nat).
Variable object_prototype_get : string -> option string.

Lemma dispatch_app (l1 l2 : list (nat * Listener)) (target : nat) (random : Q)
      (s : State) :
  dispatch host_querySelector object_prototype_get (l1 ++ l2) target random s
  = dispatch host_querySelector object_prototype_get l2 target random
      (dispatch host_querySelector object_prototype_get l1 target random s).
Proof.
  revert s; induction l1 as [|[node l] l1 IH]; intros s; simpl; auto.
  destruct (node =? target)%nat; apply IH.
Qed.

Lemma dispatch_elsewhere (ls : list (nat * Listener)) (target : nat) (random : Q)
      (s : State) :
  (forall node l, In (node, l) ls -> node <> target) ->
  dispatch host_querySelector object_prototype_get ls target random s = s.
Proof.
  induction ls as [|[node l] ls IH]; intros Hne; simpl; auto.
  destruct (Nat.eqb_spec node target) as [Heq|_].
  - exfalso; apply (Hne node l); simpl; auto.
  - apply IH; intros n l' Hin; apply (Hne n l'); simpl; auto.
Qed.

(** The listeners that one [querySelectorAll(...).forEach(addEventListener)]
    registers run once on a selected element and not at all on others. *)
Lemma dispatch_registered (p : Element -> bool) (l : Listener) (d : Document)
      (k j : nat) (random : Q) (s : State) :
  dispatch host_querySelector object_prototype_get
           (map (fun i => ((k + i)%nat, l)) (querySelectorAll p d))
           (k + j) random s
  = if match nth_error d j with Some e => p e | None => false end
    then snd (run_listener host_querySelector object_prototype_get l (k + j) random s)
    else s.
Proof.
  revert k j s; induction d as [|e d IH]; intros k j s.
  - simpl; now destruct j.
  - cbn [querySelectorAll]; rewrite map_app, dispatch_app, map_map.
    assert (Hshift : map (fun i => ((k + S i)%nat, l)) (querySelectorAll p d)
                     = map (fun i => ((S k + i)%nat, l)) (querySelectorAll p d)).
    { apply map_ext; intros i; now rewrite Nat.add_succ_r. }
    rewrite Hshift; destruct j as [|j].
    + rewrite (dispatch_elsewhere (map _ (querySelectorAll p d))).
      2:{ intros node l' Hin; apply in_map_iff in Hin.
          destruct Hin as [i [[= <- _] _]]; lia. }
      simpl; destruct (p e); simpl; [|reflexivity].
      now rewrite Nat.add_0_r, Nat.eqb_refl.
    + replace (k + S j)%nat with (S k + j)%nat by lia.
      rewrite IH; simpl.
      assert (Hhead : dispatch host_querySelector object_prototype_get
                        (map (fun i => ((k + i)%nat, l)) (if p e then [0%nat] else []))
                        (S (k + j)) random s = s).
      { apply dispatch_elsewhere; intros node l' Hin.
        destruct (p e); simpl in Hin; [|contradiction].
        destruct Hin as [[= <- _]|[]]; lia. }
      now rewrite Hhead.
Qed.

Lemma dispatch_initial (d : Document) (target : nat) (e : Element) (random : Q)
      (s : State) :
  nth_error d target = Some e ->
  dispatch host_querySelector object_prototype_get (listeners (initial d))
           target random s
  = clicked host_querySelector object_prototype_get e target random s.
Proof.
  intros He; rewrite initial_closed_form; simpl; rewrite dispatch_app.
  pose proof (dispatch_registered (has_class "tab-button") TabButtonClick d 0 target)
    as Htab.
  pose proof (dispatch_registered (has_class "menu-item") MenuItemClick d 0 target)
    as Hmenu.
  simpl in Htab, Hmenu; rewrite He in Htab, Hmenu.
  rewrite Htab, Hmenu; unfold clicked; simpl.
  reflexivity.
Qed.

End Dispatch.

(** X13. Which listeners a click runs.  In every state reached from the
    initial state of a page, a click delivered to an element of the page
    that is not disabled (a browser delivers no click to a disabled button,
    and the menu items are disabled while a call is in flight) runs the
    listeners registered on that element: the tab listener once if the
    element had the class [tab-button] when the page loaded, then the menu
    listener once if it had [menu-item]; the listeners registered at load
    time are never added to or removed.  An element with neither class has
    no listener: the click changes nothing. *)
Theorem click_runs_registered_listeners
        (host_querySelector : string -> Document -> Completion (option nat))
        (object_prototype_get : string -> option string)
        (d : Document) (es : list Event) (s : State)
        (target : nat) (e now : Element) (random : Q) :
  run host_querySelector object_prototype_get es (initial d) = Some s ->
  nth_error d target = Some e ->
  nth_error (document s) target = Some now ->
  disabled now = false ->
  listeners s = listeners (initial d)
  /\ step host_querySelector object_prototype_get (Click target random) s
     = Some (let s1 := if has_class "tab-button" e
                       then snd (tabButtonClick host_querySelector object_prototype_get
                                                target s)
                       else s in
             if has_class "menu-item" e
             then snd (menuItemClick target random s1)
             else s1)
  /\ (has_class "tab-button" e = false ->
      has_class "menu-item" e = false ->
      step host_querySelector object_prototype_get (Click target random) s = Some s).
Proof.
  intros Hrun He Hnow _.
  destruct (run_page_invariant host_querySelector object_prototype_get d es
              (initial d) s (initial_page_invariant d) Hrun) as [Hl _].
  assert (Hlt : (target <? List.length (document s))%nat = true).
  { apply Nat.ltb_lt; apply nth_error_Some; congruence. }
  assert (Hstep : step host_querySelector object_prototype_get (Click target random) s
                  = Some (clicked host_querySelector object_prototype_get
                                  e target random s)).
  { simpl; rewrite Hlt, Hl.
    now rewrite (dispatch_initial host_querySelector object_prototype_get
                   d target e random s He). }
  split; [exact Hl|]; split; [exact Hstep|].
  intros Htb Hmi; rewrite Hstep; unfold clicked; now rewrite Htb, Hmi.
Qed.

Lemma click_runs_registered_listeners_witness :
  run strict_host bare_prototype [Click 1 0] (initial sample_page)
  = Some (snd (tabButtonClick strict_host bare_prototype 1 (initial sample_page)))
  /\ nth_error sample_page 4
     = Some (sample_element None ["menu-item"] None (Some "Pizza"))
  /\ nth_error
       (document (snd (tabButtonClick strict_host bare_prototype 1 (initial sample_page))))
       4
     = Some (sample_element None ["menu-item"] None (Some "Pizza"))
  /\ disabled (sample_element None ["menu-item"] None (Some "Pizza")) = false
  /\ listeners (snd (tabButtonClick strict_host bare_prototype 1 (initial sample_page)))
     = listeners (initial sample_page)
  /\ step strict_host bare_prototype (Click 4 (1 # 2))
          (snd (tabButtonClick strict_host bare_prototype 1 (initial sample_page)))
     = Some (let s1 :=
               if has_class "tab-button"
                    (sample_element None ["menu-item"] None (Some "Pizza"))
               then snd (tabButtonClick strict_host bare_prototype 4
                           (snd (tabButtonClick strict_host bare_prototype 1
                                   (initial sample_page))))
               else snd (tabButtonClick strict_host bare_prototype 1
                           (initial sample_page)) in
             if has_class "menu-item"
                  (sample_element None ["menu-item"] None (Some "Pizza"))
             then snd (menuItemClick 4 (1 # 2) s1)
             else s1)
  /\ (has_class "tab-button" (sample_element None ["menu-item"] None (Some "Pizza"))
      = false ->
      has_class "menu-item" (sample_element None ["menu-item"] None (Some "Pizza"))
      = false ->
      step strict_host bare_prototype (Click 4 (1 # 2))
           (snd (tabButtonClick strict_host bare_prototype 1 (initial sample_page)))
      = Some (snd (tabButtonClick strict_host bare_prototype 1 (initial sample_page)))).
Proof.
  split; [vm_compute; reflexivity|].
  split; [vm_compute; reflexivity|].
  split; [vm_compute; reflexivity|].
  split; [reflexivity|].
  apply (click_runs_registered_listeners strict_host bare_prototype sample_page
           [Click 1 0]
           (snd (tabButtonClick strict_host bare_prototype 1 (initial sample_page)))
           4 (sample_element None ["menu-item"] None (Some "Pizza"))
           (sample_element None ["menu-item"] None (Some "Pizza"))
           (1 # 2));
    vm_compute; reflexivity.
Defined.

(** What that click does on the sample page: the menu listener runs, the
    call starts and the menu items are disabled; the click on a tab button
    that preceded it ran the tab listener. *)
Example click_runs_the_menu_listener :
  option_map
    (fun s => (currentTab s, isLoading s, timers s,
               map disabled (document s), statusCalls s))
    (run strict_host bare_prototype [Click 1 0; Click 4 (1 # 2)] (initial sample_page))
  = Some (Some "tab2", true, [mkTimer (Some "Pizza") (delay_of (1 # 2))],
          [false; false; false; false; true; true; false],
          [ ("Application initialized - Ready to use", EmptyString);
            ("Switched to Beverages", "success");
            (loading_message (Some "Pizza"), "loading") ]).
Proof. vm_compute; reflexivity. Qed.

(** ** The debugging snapshot *)

(** X14. What [getCurrentTabInfo] can report.  In every state reached from
    the initial state of a page the function returns normally and changes
    nothing; the tab it reports is [tab1] or the [data-tab] attribute of an
    element that had the class [tab-button] when the page loaded ([null]
    when that button has no such attribute); the loading flag it reports is
    true exactly when a callback is pending; the timestamp is the clock
    reading. *)
Theorem getCurrentTabInfo_reports
        (host_querySelector : string -> Document -> Completion (option nat))
        (object_prototype_get : string -> option string)
        (d : Document) (es : list Event) (s : State) (timestamp : string) :
  run host_querySelector object_prototype_get es (initial d) = Some s ->
  exists info,
    getCurrentTabInfo timestamp s = (Normal info, s)
    /\ (info_currentTab info = Some "tab1"
        \/ exists i e,
            nth_error d i = Some e
            /\ has_class "tab-button" e = true
            /\ info_currentTab info = data_tab e)
    /\ (info_isLoading info = true <-> timers s <> [])
    /\ info_timestamp info = timestamp.
Proof.
  intros Hrun.
  destruct (run_page_invariant host_querySelector object_prototype_get d es
              (initial d) s (initial_page_invariant d) Hrun) as [_ [_ Htab]].
  assert (Hinv : single_flight s).
  { eapply run_single_flight; [apply initial_single_flight | exact Hrun]. }
  eexists; split; [reflexivity|]; simpl.
  split; [exact Htab|]; split; [|reflexivity].
  unfold single_flight in Hinv.
  destruct (isLoading s), (timers s); try discriminate; split; congruence.
Qed.

Lemma getCurrentTabInfo_reports_witness :
  exists s,
    run strict_host bare_prototype [Click 1 0; Click 4 (1 # 2)] (initial sample_page)
    = Some s
    /\ exists info,
      getCurrentTabInfo "2026-01-01T00:00:00.000Z" s = (Normal info, s)
      /\ (info_currentTab info = Some "tab1"
          \/ exists i e,
              nth_error sample_page i = Some e
              /\ has_class "tab-button" e = true
              /\ info_currentTab info = data_tab e)
      /\ (info_isLoading info = true <-> timers s <> [])
      /\ info_timestamp info = "2026-01-01T00:00:00.000Z".
Proof.
  eexists; split; [vm_compute; reflexivity|].
  apply (getCurrentTabInfo_reports strict_host bare_prototype sample_page
           [Click 1 0; Click 4 (1 # 2)]).
  vm_compute; reflexivity.
Defined.

(** ** Initialization *)

Lemma querySelectorAll_In (p : Element -> bool) (d : Document) (target : nat) :
  In target (querySelectorAll p d)
  <-> match nth_error d target with Some e => p e | None => false end = true.
Proof.
  revert target; induction d as [|x d IH]; intros target; simpl.
  - split; [contradiction | destruct target; discriminate].
  - rewrite in_app_iff, in_map_iff; destruct target as [|j]; simpl.
    + split.
      * intros [H|[i [H _]]]; [|discriminate].
        destruct (p x); [reflexivity | contradiction].
      * intros Hp; left; rewrite Hp; simpl; auto.
    + rewrite <- IH; split.
      * intros [H|[i [[= <-] Hi]]]; [|exact Hi].
        destruct (p x); simpl in H; [destruct H as [H|[]]; discriminate | contradiction].
      * intros H; right; exists j; auto.
Qed.

(** X15. What initialization does and does not do.  Whatever the page, the
    [DOMContentLoaded] listener leaves [currentTab] at [tab1], the busy flag
    clear and nothing pending; it registers a tab listener on exactly the
    elements with class [tab-button] and a menu listener on exactly those
    with class [menu-item]; it makes one status call, with the ready message
    and no type, after which the status element, if there is one, shows
    that message and carries none of the three styling classes; and it does
    not look at the highlighting: every element has the class [active]
    exactly if the page came with it, also when that disagrees with
    [tab1]. *)
Theorem initialization_effects (d : Document) :
  currentTab (initial d) = Some "tab1"
  /\ isLoading (initial d) = false
  /\ timers (initial d) = []
  /\ statusCalls (initial d) = [("Application initialized - Ready to use", EmptyString)]
  /\ (forall target,
         In (target, TabButtonClick) (listeners (initial d))
         <-> node_has_class "tab-button" d target = true)
  /\ (forall target,
         In (target, MenuItemClick) (listeners (initial d))
         <-> node_has_class "menu-item" d target = true)
  /\ active_flags (document (initial d)) = active_flags d
  /\ (forall i e,
         getElementById "statusMessage" d = Some i ->
         nth_error d i = Some e ->
         exists e',
           nth_error (document (initial d)) i = Some e'
           /\ textContent e' = "Application initialized - Ready to use"
           /\ styling_count (classList e') = 0%nat).
Proof.
  rewrite initial_closed_form; simpl.
  do 4 (split; [reflexivity|]).
  pose proof (fun p => querySelectorAll_In p d) as Hreg.
  split.
  { intros target; rewrite in_app_iff, !in_map_iff; unfold node_has_class.
    rewrite <- (Hreg (has_class "tab-button") target); split.
    - intros [[i [[= <-] Hi]]|[i [[=] _]]]; exact Hi.
    - intros Hi; left; exists target; auto. }
  split.
  { intros target; rewrite in_app_iff, !in_map_iff; unfold node_has_class.
    rewrite <- (Hreg (has_class "menu-item") target); split.
    - intros [[i [[=] _]]|[i [[= <-] Hi]]]; exact Hi.
    - intros Hi; right; exists target; auto. }
  split.
  { apply map_show_status; intros e; unfold has_class.
    destruct (contains_status_shown "active" "Application initialized - Ready to use"
                EmptyString e) as [a ->].
    simpl; now rewrite andb_true_r, andb_false_r, orb_false_r. }
  intros i e Hid He; unfold show_status.
  rewrite Hid, nth_error_update_at_same, He; simpl.
  eexists; split; [reflexivity|]; split; [reflexivity|].
  unfold styling_count, styling_classes; simpl.
  rewrite !contains_classList_remove; simpl.
  now rewrite !andb_false_r.
Qed.

(** ** Every call is reported once *)

Lemma count_calls_snoc (f : string * string -> bool) (l : list (string * string))
      (call : string * string) :
  count_calls f (l ++ [call]) = (count_calls f l + if f call then 1 else 0)%nat.
Proof.
  unfold count_calls; rewrite filter_app, length_app; simpl.
  now destruct (f call).
Qed.

Lemma outcome_call_counts (itemName : option string) (success : bool)
      (currentTime : string) :
  is_outcome_call (outcome_call itemName success currentTime) = true
  /\ is_loading_call (outcome_call itemName success currentTime) = false.
Proof. destruct success; split; reflexivity. Qed.

Lemma loading_call_counts (itemName : option string) :
  is_outcome_call (loading_message itemName, "loading") = false
  /\ is_loading_call (loading_message itemName, "loading") = true.
Proof. split; reflexivity. Qed.

Section Accounting.

Variable host_querySelector : string -> Document -> Completion (option nat).
Variable object_prototype_get : string -> option string.

Lemma run_listener_accounted (l : Listener) (this : nat) (random : Q) (s : State) :
  accounted s ->
  accounted (snd (run_listener host_querySelector object_prototype_get l this random s)).
Proof.
  unfold accounted; intros Hacc; destruct l; simpl.
  - destruct (isLoading s) eqn:Hload.
    + rewrite (tabButtonClick_busy host_querySelector object_prototype_get this s Hload).
      simpl; rewrite !count_calls_snoc, Hload; simpl; lia.
    + rewrite tabButtonClick_idle by assumption.
      pose proof (switchToTab_cases host_querySelector object_prototype_get
                    (match nth_error (document s) this with
                     | Some e => data_tab e
                     | None => None
                     end) s) as Hcases; cbv zeta in Hcases.
      rewrite Hcases.
      destruct (select_tab_button host_querySelector _ _) as [o|]; simpl;
        rewrite ?count_calls_snoc, ?Hload; simpl; lia.
  - destruct (isLoading s) eqn:Hload.
    + rewrite menuItemClick_busy by assumption.
      simpl; rewrite !count_calls_snoc, Hload; simpl; lia.
    + rewrite menuItemClick_idle, simulateRestApiCall_run by assumption.
      simpl; rewrite !count_calls_snoc.
      destruct (loading_call_counts (itemName_of this s)) as [-> ->]; lia.
Qed.

Lemma step_accounted (e : Event) (s s' : State) :
  single_flight s -> accounted s ->
  step host_querySelector object_prototype_get e s = Some s' ->
  accounted s'.
Proof.
  intros Hinv Hacc; destruct e as [target random|i random now]; simpl.
  - destruct (target <? List.length (document s))%nat; [|discriminate].
    intros [= <-].
    apply (dispatch_invariant host_querySelector object_prototype_get accounted); auto.
    intros; now apply run_listener_accounted.
  - destruct (nth_error (timers s) i) as [t|] eqn:Ht; [|discriminate].
    intros [= <-]; rewrite timeoutCallback_run.
    unfold accounted, single_flight in *; simpl.
    rewrite !count_calls_snoc.
    destruct (outcome_call_counts (timer_itemName t) (success_of random) now)
      as [-> ->].
    destruct (isLoading s); [lia|].
    destruct (timers s); [destruct i|]; discriminate.
Qed.

Lemma run_accounted (es : list Event) (s s' : State) :
  single_flight s -> accounted s ->
  run host_querySelector object_prototype_get es s = Some s' ->
  accounted s'.
Proof.
  revert s; induction es as [|e es IH]; intros s Hinv Hacc; simpl.
  - now intros [= <-].
  - destruct (step host_querySelector object_prototype_get e s) as [s1|] eqn:Hstep;
      [|discriminate].
    apply IH.
    + eapply step_single_flight; eauto.
    + eapply step_accounted; eauto.
Qed.

End Accounting.

(** X16. Every call is reported exactly once.  In every state reached from
    the initial state of a page, the status calls of type [loading], one
    per call started, are as many as the status calls that report an
    outcome, a success or a failure, plus one while a call is in flight.  So
    no call is started without being announced, none is reported twice, a
    rejected click is never reported as an outcome, and once the page is
    idle every call that was started has been reported. *)
Theorem calls_are_reported_once
        (host_querySelector : string -> Document -> Completion (option nat))
        (object_prototype_get : string -> option string)
        (d : Document) (es : list Event) (s : State) :
  run host_querySelector object_prototype_get es (initial d) = Some s ->
  List.length (filter (fun call => String.eqb (snd call) "loading") (statusCalls s))
  = (List.length
       (filter (fun call =>
                  prefix "✓ API call successful for " (fst call)
                  || prefix "✗ API call failed for " (fst call))
               (statusCalls s))
     + if isLoading s then 1 else 0)%nat.
Proof.
  intros Hrun.
  apply (run_accounted host_querySelector object_prototype_get es (initial d) s).
  - apply initial_single_flight.
  - rewrite initial_closed_form; reflexivity.
  - exact Hrun.
Qed.

Lemma calls_are_reported_once_witness :
  exists s,
    run strict_host bare_prototype
        [Click 4 (1 # 4); Click 5 (1 # 3); TimerFired 0 (1 # 2) "12:00:00"; Click 1 0;
         Click 5 0]
        (initial sample_page) = Some s
    /\ List.length (filter (fun call => String.eqb (snd call) "loading") (statusCalls s))
       = (List.length
            (filter (fun call =>
                       prefix "✓ API call successful for " (fst call)
                       || prefix "✗ API call failed for " (fst call))
                    (statusCalls s))
          + if isLoading s then 1 else 0)%nat.
Proof.
  eexists; split; [vm_compute; reflexivity|].
  apply (calls_are_reported_once strict_host bare_prototype sample_page
           [Click 4 (1 # 4); Click 5 (1 # 3); TimerFired 0 (1 # 2) "12:00:00"; Click 1 0;
            Click 5 0]).
  vm_compute; reflexivity.
Defined.
